(** * CoreMind: the provider request adapter and the frontend API client

    What is embedded here:

    - [Adapter]: the LLM provider request adapter, [send].  Its
      implementation (backend/app/services/llm_service.py) is not among the
      sources; what the repository shows of it is the dispatch sketch and the
      401 message in docs/LLM调用错误修复说明.md.  Those are transcribed as
      they stand: the dispatch reads the base URL and nothing else.  The
      parts the documents do not show (the members the sketch elides, the
      reading of the answer, the classification of errors) follow the
      specification.
    - [Frontend]: the two interceptors of the shared axios client,
      frontend/src/services/api.ts.
    - [App]: the route guard of App.tsx.
    - [ChatPage]: [handleSendMessage] of pages/Chat.tsx.
    - [LLMConfigPage]: the provider handlers and the dialog of
      pages/LLMConfig.tsx.
    - [DataSourcePage], [InterfacePage]: [handleCreate] of
      pages/DataSource.tsx and pages/Interface.tsx.
    - [LoginPage]: [onFinish] of pages/Login.tsx. *)

From Stdlib Require Import String Ascii List ZArith QArith Bool Lia.
Import ListNotations.
Local Open Scope string_scope.

(** ** Strings, as Python uses them in the sketch *)

Module Str.

(** [sub in s] *)
Fixpoint contains (sub s : string) : bool :=
  String.prefix sub s ||
  match s with
  | EmptyString => false
  | String _ s' => contains sub s'
  end.

(** [s.rstrip(c)] for a single character [c] *)
Fixpoint rstrip (c : ascii) (s : string) : string :=
  match s with
  | EmptyString => EmptyString
  | String a s' =>
      match rstrip c s' with
      | EmptyString => if Ascii.eqb a c then EmptyString else String a EmptyString
      | r => String a r
      end
  end.

(** [s.endswith(suf)] *)
Fixpoint ends_with (suf s : string) : bool :=
  String.eqb suf s ||
  match s with
  | EmptyString => false
  | String _ s' => ends_with suf s'
  end.

(** [s[:n]] *)
Fixpoint take (n : nat) (s : string) : string :=
  match n, s with
  | S n', String a s' => String a (take n' s')
  | _, _ => EmptyString
  end.

Fixpoint last_char (s : string) : option ascii :=
  match s with
  | EmptyString => None
  | String a EmptyString => Some a
  | String _ s' => last_char s'
  end.

Definition is_empty (s : string) : bool :=
  match s with EmptyString => true | _ => false end.

End Str.

(** ** A JavaScript object used as a map: string keys, in insertion order *)

Module Obj.

Fixpoint get {A : Type} (k : string) (o : list (string * A)) : option A :=
  match o with
  | [] => None
  | (k', v) :: o' => if String.eqb k k' then Some v else get k o'
  end.

(** [o[k] = v]: the value replaced in place, or the key added last *)
Fixpoint set {A : Type} (k : string) (v : A) (o : list (string * A)) : list (string * A) :=
  match o with
  | [] => [(k, v)]
  | (k', v') :: o' =>
      if String.eqb k k' then (k, v) :: o' else (k', v') :: set k v o'
  end.

End Obj.

(** ** JSON values, as Python's json module decodes them

    Objects keep their members in order; a float is idealised as a
    rational. *)

Module Json.

#[local] Set Warnings "-register-all".

Inductive JSON : Type :=
| JNull
| JBool (b : bool)
| JInt (z : Z)
| JFloat (q : Q)
| JStr (s : string)
| JArr (items : list JSON)
| JObj (members : list (string * JSON)).

Fixpoint assoc (k : string) (l : list (string * JSON)) : option JSON :=
  match l with
  | [] => None
  | (k', v) :: l' => if String.eqb k k' then Some v else assoc k l'
  end.

(** [j[k]] on an object, [None] for a missing key or another kind of value *)
Definition member (k : string) (j : JSON) : option JSON :=
  match j with
  | JObj ms => assoc k ms
  | _ => None
  end.

(** [j[n]] on an array *)
Definition item (n : nat) (j : JSON) : option JSON :=
  match j with
  | JArr l => nth_error l n
  | _ => None
  end.

Definition as_str (j : JSON) : option string :=
  match j with
  | JStr s => Some s
  | _ => None
  end.

Inductive Step : Type :=
| Key (k : string)
| Idx (n : nat).

Definition step (s : Step) (j : JSON) : option JSON :=
  match s with
  | Key k => member k j
  | Idx n => item n j
  end.

Fixpoint lookup (path : list Step) (j : JSON) : option JSON :=
  match path with
  | [] => Some j
  | s :: path' =>
      match step s j with
      | Some j' => lookup path' j'
      | None => None
      end
  end.

Definition lookup_str (path : list Step) (j : JSON) : option string :=
  match lookup path j with
  | Some v => as_str v
  | None => None
  end.

End Json.

(** ** One outbound call: the HTTP transport and programs over it *)

Module Http.
Import Json.

Record HttpRequest : Type := mkRequest {
  method : string;
  url : string;
  headers : list (string * string);
  body : JSON
}.

(** A response as the HTTP client hands it over: the status, the body text,
    and the body decoded as JSON when it decodes. *)
Record HttpResponse : Type := mkResponse {
  status : Z;
  text : string;
  json : option JSON
}.

Inductive TransportOutcome : Type :=
| Responded (r : HttpResponse)
| TransportFailure.

Definition Transport : Type := HttpRequest -> TransportOutcome.

(** A program whose only effect is the outbound call. *)
Inductive Prog (A : Type) : Type :=
| Ret (a : A)
| Call (r : HttpRequest) (k : TransportOutcome -> Prog A).

Arguments Ret {A} a.
Arguments Call {A} r k.

Fixpoint bind {A B : Type} (m : Prog A) (f : A -> Prog B) : Prog B :=
  match m with
  | Ret a => f a
  | Call r k => Call r (fun o => bind (k o) f)
  end.

Definition perform (r : HttpRequest) : Prog TransportOutcome :=
  Call r (fun o => Ret o).

(** Running a program against a transport: the value, and the requests
    issued, oldest first. *)
Fixpoint run {A : Type} (t : Transport) (m : Prog A) : A * list HttpRequest :=
  match m with
  | Ret a => (a, [])
  | Call r k => let (a, log) := run t (k (t r)) in (a, r :: log)
  end.

Definition result_of {A : Type} (t : Transport) (m : Prog A) : A := fst (run t m).
Definition calls_of {A : Type} (t : Transport) (m : Prog A) : list HttpRequest :=
  snd (run t m).

End Http.

Declare Scope prog_scope.
Delimit Scope prog_scope with prog.
Notation "x <- m ;; k" := (Http.bind m (fun x => k))
  (at level 61, m at next level, right associativity) : prog_scope.

(** ** The provider request adapter *)

Module Adapter.
Import Json Http.

(** *** Data model

    Modelled from the spec: the types of section 3, ProviderProfile,
    ChatRequest, NormalizedResult and NormalizedError, which
    llm_service.py would declare. *)

Inductive ProviderKind : Type :=
| OpenAICompatible
| AlibabaCompatible
| NativeLegacy
| SelfHosted
| Custom.

Inductive Role : Type :=
| System
| User
| Assistant.

Record Message : Type := mkMessage {
  role : Role;
  content : string
}.

Record GenParams : Type := mkParams {
  temperature : Q;
  max_tokens : Z
}.

Definition CredentialRef : Type := string.

Record ProviderProfile : Type := mkProfile {
  kind : ProviderKind;
  model_name : string;
  api_base : option string;
  credential : CredentialRef;
  params : GenParams
}.

Record ChatRequest : Type := mkChat {
  messages : list Message;
  profile : ProviderProfile;
  stream : bool
}.

Record NormalizedResult : Type := mkResult {
  res_content : string;
  res_usage : option JSON
}.

Inductive ErrorKind : Type :=
| Authentication
| AuthorizationQuota
| NotFound
| RateLimited
| Network
| MalformedResponse
| Unknown.

Record NormalizedError : Type := mkError {
  err_kind : ErrorKind;
  err_status : option Z;
  err_hint : string;
  err_context : option string
}.

(** What a call yields: one of the two, by construction of the type. *)
Inductive Outcome : Type :=
| Ok (r : NormalizedResult)
| Fail (e : NormalizedError).

(** The credential store: a decrypted key for a reference, or none. *)
Definition CredentialStore : Type := CredentialRef -> option string.

(** *** Dispatch, transcribed from the sketch where it shows it *)

Definition marker : string := "compatible-mode".
Definition chat_path : string := "/chat/completions".
Definition native_path : string := "/api/v1/services/aigc/text-generation/generation".

(** [if self.api_base:] - Python's truth of an optional string *)
Definition base_of (p : ProviderProfile) : option string :=
  match api_base p with
  | Some b => if Str.is_empty b then None else Some b
  | None => None
  end.

(** [f"{self.api_base.rstrip('/')}/chat/completions"] *)
Definition compat_url (base : string) : string :=
  Str.rstrip "/"%char base ++ chat_path.

(** [f"{self.api_base}/api/v1/services/aigc/text-generation/generation"] *)
Definition native_url (base : string) : string :=
  base ++ native_path.

Inductive Shape : Type :=
| OpenAIShape
| NativeShape.

(** The three branches of the sketch: the compatible mode, the legacy API,
    and the default taken without a base URL. *)
Inductive Rule : Type :=
| ByMarker
| ByLegacyApi
| ByDefault.

(** The branching of the sketch, lines 37-56:
    [if self.api_base:], then [if "compatible-mode" in self.api_base:],
    with its two [else].  Of the profile it reads the base URL only. *)
Definition dispatch (p : ProviderProfile) : Rule :=
  match base_of p with
  | Some b => if Str.contains marker b then ByMarker else ByLegacyApi
  | None => ByDefault
  end.

(** The request format of each branch, as the sketch comments it: the
    OpenAI format in the compatible mode and by default, the provider's own
    in the legacy API. *)
Definition shape_of (r : Rule) : Shape :=
  match r with
  | ByLegacyApi => NativeShape
  | ByMarker | ByDefault => OpenAIShape
  end.

(** The literal of the sketch's last branch. *)
Definition sketch_default_url : string :=
  "https://dashscope.aliyuncs.com/compatible-mode/v1/chat/completions".

(** [url], as the three branches assign it. *)
Definition target_url (p : ProviderProfile) : string :=
  match base_of p with
  | Some b => if Str.contains marker b then compat_url b else native_url b
  | None => sketch_default_url
  end.

Definition role_name (r : Role) : string :=
  match r with
  | System => "system"
  | User => "user"
  | Assistant => "assistant"
  end.

(** Modelled from the spec: a message as the role+content pair that goes on
    the wire. *)
Definition encode_message (m : Message) : JSON :=
  JObj [("role", JStr (role_name (role m))); ("content", JStr (content m))].

Definition encode_messages (ms : list Message) : JSON :=
  JArr (map encode_message ms).

(** Modelled from the spec: the members temperature and max_tokens, which
    the sketch elides after [model] and [messages]; and the use of this
    body in the default branch, where the sketch assigns the URL only,
    under the comment that the compatible mode is the default. *)
Definition compat_body (req : ChatRequest) : JSON :=
  let p := profile req in
  JObj [("model", JStr (model_name p));
        ("messages", encode_messages (messages req));
        ("temperature", JFloat (temperature (params p)));
        ("max_tokens", JInt (max_tokens (params p)))].

(** Modelled from the spec: the native body, the messages nested under
    input.messages as in the sketch; the members the sketch elides are taken
    to be the generation parameters. *)
Definition native_body (req : ChatRequest) : JSON :=
  let p := profile req in
  JObj [("model", JStr (model_name p));
        ("input", JObj [("messages", encode_messages (messages req))]);
        ("parameters", JObj [("temperature", JFloat (temperature (params p)));
                             ("max_tokens", JInt (max_tokens (params p)))])].

Definition body_for (s : Shape) (req : ChatRequest) : JSON :=
  match s with
  | OpenAIShape => compat_body req
  | NativeShape => native_body req
  end.

(** Modelled from the spec: the key travels as a bearer token, and is left
    out for a key-less backend. *)
Definition auth_headers (key : option string) : list (string * string) :=
  match key with
  | Some k => [("Authorization", "Bearer " ++ k)]
  | None => []
  end.

Definition is_2xx (s : Z) : bool := ((200 <=? s) && (s <? 300))%Z.

(** Modelled from the spec: the status table of the error classification. *)
Definition classify_status (s : Z) : ErrorKind :=
  if (s =? 401)%Z then Authentication
  else if (s =? 403)%Z then AuthorizationQuota
  else if (s =? 404)%Z then NotFound
  else if (s =? 429)%Z then RateLimited
  else Unknown.

Definition nl : string := String "010"%char EmptyString.

Definition check_key_format : string := "1. API密钥是否正确（格式：sk-xxx）".
Definition check_key_active : string := "2. API密钥是否已激活".
Definition check_key_rights : string := "3. API密钥是否有足够的权限".

(** The 401 message, as the repository documents it. *)
Definition auth_hint : string :=
  "API密钥认证失败（401 Unauthorized）。" ++ nl ++
  "请检查：" ++ nl ++
  check_key_format ++ nl ++
  check_key_active ++ nl ++
  check_key_rights.

(** Modelled from the spec: the remediation hint of each kind. *)
Definition hint_of (k : ErrorKind) : string :=
  match k with
  | Authentication => auth_hint
  | AuthorizationQuota => "check balance and model access rights"
  | NotFound => "check model name and base URL"
  | RateLimited => "back off / check quota"
  | Network => "check connectivity/proxy"
  | MalformedResponse => "the response lacks the expected content field"
  | Unknown => "unexpected provider response"
  end.

(** Modelled from the spec: the provider's own machine-readable message in
    an error body, error.message or a top-level message. *)
Definition provider_message (j : JSON) : option string :=
  match lookup_str [Key "error"; Key "message"] j with
  | Some m => Some m
  | None => lookup_str [Key "message"] j
  end.

(** Modelled from the spec: what is appended to the hint, the provider's
    message on a line of its own when the body has one. *)
Definition detail_of (r : HttpResponse) : string :=
  match json r with
  | Some j =>
      match provider_message j with
      | Some m => nl ++ m
      | None => ""
      end
  | None => ""
  end.

(** Modelled from the spec: the path of the content field, per shape,
    choices[0].message.content and output.text. *)
Definition content_path (s : Shape) : list Step :=
  match s with
  | OpenAIShape => [Key "choices"; Idx 0; Key "message"; Key "content"]
  | NativeShape => [Key "output"; Key "text"]
  end.

Definition extract_content (s : Shape) (j : JSON) : option string :=
  lookup_str (content_path s) j.

Section Configured.

(** The length to which a body is cut in the diagnostic context. *)
Variable body_limit : nat.

(** Modelled from the spec: the one request of a call, a POST of the body
    to the target the sketch assigns. *)
Definition build_request (store : CredentialStore) (req : ChatRequest) : HttpRequest :=
  let p := profile req in
  {| method := "POST";
     url := target_url p;
     headers := ("Content-Type", "application/json") :: auth_headers (store (credential p));
     body := body_for (shape_of (dispatch p)) req |}.

(** Modelled from the spec: the error built from an answer, with its
    status, the hint of its kind and the body cut to [body_limit]. *)
Definition failure (k : ErrorKind) (r : HttpResponse) : NormalizedError :=
  {| err_kind := k;
     err_status := Some (status r);
     err_hint := hint_of k ++ detail_of r;
     err_context := Some (Str.take body_limit (text r)) |}.

(** Modelled from the spec: reading the transport's answer with the parser
    of the shape the request was built in.  An answer with a 2xx status is
    parsed, and one that does not hold the content field, undecodable or
    not, is a shape mismatch; the status table applies to the others. *)
Definition normalize (s : Shape) (o : TransportOutcome) : Outcome :=
  match o with
  | TransportFailure =>
      Fail {| err_kind := Network; err_status := None;
              err_hint := hint_of Network; err_context := None |}
  | Responded r =>
      if is_2xx (status r) then
        match json r with
        | None => Fail (failure MalformedResponse r)
        | Some j =>
            match extract_content s j with
            | Some c => Ok {| res_content := c; res_usage := member "usage" j |}
            | None => Fail (failure MalformedResponse r)
            end
        end
      else Fail (failure (classify_status (status r)) r)
  end.

(** Modelled from the spec: [send], the adapter's one entry point.  The
    request is built, issued once, and the answer normalized. *)
Definition send (store : CredentialStore) (req : ChatRequest) : Prog Outcome :=
  (o <- perform (build_request store req) ;;
   Ret (normalize (shape_of (dispatch (profile req))) o))%prog.

End Configured.

(** The sketch itself, for the provider it is written for: the target and
    the shape decided from [self.api_base] alone. *)
Definition sketch_target (base : option string) : string * Shape :=
  match base with
  | Some b =>
      if Str.is_empty b then (sketch_default_url, OpenAIShape)
      else if Str.contains marker b then (compat_url b, OpenAIShape)
      else (native_url b, NativeShape)
  | None => (sketch_default_url, OpenAIShape)
  end.

End Adapter.

(** ** The shared axios client of the frontend (services/api.ts) *)

Module Frontend.
Import Json.

Record AxiosResponse : Type := mkAxiosResponse {
  status : Z;
  data : JSON
}.

(** An axios error: [error.response] is absent when no response arrived. *)
Record AxiosError : Type := mkAxiosError {
  response : option AxiosResponse
}.

(** What the caller's promise settles to. *)
Inductive Promise (A : Type) : Type :=
| Resolved (a : A)
| Rejected (e : AxiosError).

Arguments Resolved {A} a.
Arguments Rejected {A} e.

(** The state the interceptor touches: the auth store and the location. *)
Record AuthState : Type := mkAuth {
  token : option string;
  user : option JSON
}.

Record Browser : Type := mkBrowser {
  auth : AuthState;
  href : string
}.

(** Modelled from the spec: [logout] of store/authStore, which is not among
    the sources; it clears the stored token and user. *)
Definition logout (a : AuthState) : AuthState :=
  {| token := None; user := None |}.

(** [error.response?.status === 401] *)
Definition status_is_401 (e : AxiosError) : bool :=
  match response e with
  | Some r => (status r =? 401)%Z
  | None => false
  end.

(** [(response) => response.data] *)
Definition on_fulfilled (r : AxiosResponse) (b : Browser) : Promise JSON * Browser :=
  (Resolved (data r), b).

(** [(error) => { if (...) { logout(); window.location.href = '/login' }
    return Promise.reject(error) }] *)
Definition on_rejected (e : AxiosError) (b : Browser) : Promise JSON * Browser :=
  let b' :=
    if status_is_401 e
    then {| auth := logout (auth b); href := "/login" |}
    else b in
  (Rejected e, b').

(** axios settles a response by its default [validateStatus], which the
    client does not override: 2xx fulfils, any other status rejects with
    the response attached to the error. *)
Inductive Settled : Type :=
| Fulfilled (r : AxiosResponse)
| Failed (e : AxiosError).

Definition settle (r : AxiosResponse) : Settled :=
  if ((200 <=? status r) && (status r <? 300))%Z
  then Fulfilled r
  else Failed {| response := Some r |}.

(** [api.interceptors.response.use(onFulfilled, onRejected)] *)
Definition intercept (s : Settled) (b : Browser) : Promise JSON * Browser :=
  match s with
  | Fulfilled r => on_fulfilled r b
  | Failed e => on_rejected e b
  end.

(** What a call through the client yields for a response that arrived. *)
Definition receive (r : AxiosResponse) (b : Browser) : Promise JSON * Browser :=
  intercept (settle r) b.

(** The config of an outgoing request; the interceptor writes its headers. *)
Record RequestConfig : Type := mkConfig {
  cfg_method : string;
  cfg_url : string;
  cfg_headers : list (string * string);
  cfg_data : JSON
}.

(** [if (token)]: a string that is neither null nor empty *)
Definition truthy (s : option string) : bool :=
  match s with
  | Some t => negb (Str.is_empty t)
  | None => false
  end.

(** [(config) => { const token = useAuthStore.getState().token
    if (token) { config.headers.Authorization = `Bearer ${token}` }
    return config }] *)
Definition on_request (c : RequestConfig) (b : Browser) : RequestConfig :=
  match token (auth b) with
  | Some t =>
      if Str.is_empty t then c
      else {| cfg_method := cfg_method c;
              cfg_url := cfg_url c;
              cfg_headers := Obj.set "Authorization" ("Bearer " ++ t) (cfg_headers c);
              cfg_data := cfg_data c |}
  | None => c
  end.

End Frontend.

(** ** The routes of the application (App.tsx) *)

Module App.

Inductive Page : Type :=
| Login
| Register
| Dashboard
| DataSource
| Knowledge
| Interface
| LLMConfig
| Assistant
| Chat.

(** The children of the root route: its index and the six named paths. *)
Inductive Child : Type :=
| Index
| Datasources
| KnowledgePath
| Interfaces
| LlmConfigs
| Assistants
| ChatPath.

(** The route the router matched. *)
Inductive Route : Type :=
| LoginRoute
| RegisterRoute
| Root (c : Child).

Definition page_of (c : Child) : Page :=
  match c with
  | Index => Dashboard
  | Datasources => DataSource
  | KnowledgePath => Knowledge
  | Interfaces => Interface
  | LlmConfigs => LLMConfig
  | Assistants => Assistant
  | ChatPath => Chat
  end.

(** What is rendered: a page on its own, a page in the main layout's
    outlet, or a navigation. *)
Inductive View : Type :=
| Show (p : Page)
| InLayout (p : Page)
| Navigate (to : string).

(** [element={token ? <MainLayout /> : <Navigate to="/login" />}] on the
    root route; the login and register routes carry their page. *)
Definition element (tok : option string) (r : Route) : View :=
  match r with
  | LoginRoute => Show Login
  | RegisterRoute => Show Register
  | Root c => if Frontend.truthy tok then InLayout (page_of c) else Navigate "/login"
  end.

End App.

(** ** The chat page (pages/Chat.tsx): sending a message *)

Module ChatPage.
Import Json Frontend.

(** A message of the list on screen; [content] is absent when the answer
    has no such member. *)
Record Msg : Type := mkMsg {
  role : string;
  content : option JSON
}.

Record Conversation : Type := mkConversation {
  id : string
}.

(** The state the handler reads and sets, and the error notices shown. *)
Record State : Type := mkState {
  messages : list Msg;
  inputMessage : string;
  loading : bool;
  currentConversation : option Conversation;
  notices : list JSON
}.

(** JavaScript's truth of a decoded value. *)
Definition js_truthy (j : JSON) : bool :=
  match j with
  | JNull => false
  | JBool b => b
  | JInt z => negb (z =? 0)%Z
  | JFloat q => negb (Qeq_bool q 0)
  | JStr s => negb (Str.is_empty s)
  | JArr _ | JObj _ => true
  end.

(** [error.response?.data?.detail || '发送失败'] *)
Definition notice_of (e : AxiosError) : JSON :=
  match response e with
  | Some r =>
      match member "detail" (data r) with
      | Some d => if js_truthy d then d else JStr "发送失败"
      | None => JStr "发送失败"
      end
  | None => JStr "发送失败"
  end.

(** [chatV2API.sendMessage(id, { message, stream: false })] *)
Definition send_request (conv : Conversation) (userMessage : string) : RequestConfig :=
  {| cfg_method := "post";
     cfg_url := "/chat-v2/conversations/" ++ id conv ++ "/messages";
     cfg_headers := [];
     cfg_data := JObj [("message", JStr userMessage); ("stream", JBool false)] |}.

Section Trim.

(** [!s.trim()] of the JavaScript runtime. *)
Variable blank : string -> bool.

(** Up to the [await]: the guard, then the input cleared, [loading] set and
    the user's message appended; [None] when the guard returns. *)
Definition begin_send (st : State) : option (State * RequestConfig) :=
  if blank (inputMessage st) then None
  else match currentConversation st with
       | None => None
       | Some conv =>
           Some ({| messages := messages st ++ [mkMsg "user" (Some (JStr (inputMessage st)))];
                    inputMessage := "";
                    loading := true;
                    currentConversation := currentConversation st;
                    notices := notices st |},
                 send_request conv (inputMessage st))
       end.

(** The [catch] clause: the notice, and [prev.slice(0, -1)]. *)
Definition on_catch (e : AxiosError) (st : State) : State :=
  {| messages := removelast (messages st);
     inputMessage := inputMessage st;
     loading := loading st;
     currentConversation := currentConversation st;
     notices := notices st ++ [notice_of e] |}.

(** [finally]: [setLoading(false)] *)
Definition on_finally (st : State) : State :=
  {| messages := messages st;
     inputMessage := inputMessage st;
     loading := false;
     currentConversation := currentConversation st;
     notices := notices st |}.

(** After the [await]: the answer's content appended, or the [catch]
    clause; then [finally].  The appended message reads [response.content]
    inside the state updater: on a null answer that read throws while the
    list is rendered, outside the handler's [try], and no state results. *)
Definition finish_send (o : Promise JSON) (st : State) : option State :=
  match o with
  | Resolved JNull => None
  | Resolved d =>
      Some (on_finally
              {| messages := messages st ++ [mkMsg "assistant" (member "content" d)];
                 inputMessage := inputMessage st;
                 loading := loading st;
                 currentConversation := currentConversation st;
                 notices := notices st |})
  | Rejected e => Some (on_finally (on_catch e st))
  end.

(** [handleSendMessage], the answer of the client given as a function of
    the request. *)
Definition handleSendMessage
  (client : RequestConfig -> Promise JSON) (st : State) : option State :=
  match begin_send st with
  | None => Some st
  | Some (st1, rq) => finish_send (client rq) st1
  end.

End Trim.

(** [disabled={!currentConversation || loading}] of the input and of the
    send button. *)
Definition controls_disabled (st : State) : bool :=
  match currentConversation st with
  | Some _ => loading st
  | None => true
  end.

End ChatPage.

(** ** What the pages share: notices, requests, a call through the client *)

Module Ui.
Import Json Frontend.

(** [message.success(text)] and [message.error(shown)] *)
Inductive Notice : Type :=
| Success (text : string)
| Error (shown : JSON).

(** [error.response?.data?.detail || fallback] *)
Definition detail_or (fallback : string) (e : AxiosError) : JSON :=
  match response e with
  | Some r =>
      match member "detail" (data r) with
      | Some d => if ChatPage.js_truthy d then d else JStr fallback
      | None => JStr fallback
      end
  | None => JStr fallback
  end.

(** [api.get(url)], [api.post(url, data)], [api.put(url, data)],
    [api.delete(url)]: the config as the page hands it to the client. *)
Definition call (m url : string) (d : JSON) : RequestConfig :=
  {| cfg_method := m; cfg_url := url; cfg_headers := []; cfg_data := d |}.

(** One call through the shared client: the request interceptor, the
    server's answer or none, the response interceptor. *)
Definition exchange
  (server : RequestConfig -> option AxiosResponse) (c : RequestConfig) (b : Browser)
  : Promise JSON * Browser :=
  match server (on_request c b) with
  | Some r => receive r b
  | None => on_rejected {| response := None |} b
  end.

End Ui.

(** ** The LLM configuration page (pages/LLMConfig.tsx) *)

Module LLMConfigPage.
Import Json.

Record LLMProvider : Type := mkProvider {
  value : string;
  label : string;
  models : list string;
  default_base : string
}.

(** What the page holds of a configuration: whether a key is set, never
    the key. *)
Record LLMConfig : Type := mkLLMConfig {
  id : string;
  name : string;
  provider : string;
  model_name : string;
  api_base : option string;
  temperature : Q;
  max_tokens : Z;
  is_default : bool;
  is_active : bool;
  has_api_key : bool
}.

(** [providers.find(p => p.value === provider)] *)
Definition find_provider (providers : list LLMProvider) (v : string) : option LLMProvider :=
  find (fun p => String.eqb (value p) v) providers.

(** [providers.find(p => p.value === value)?.label || value] *)
Definition getProviderLabel (providers : list LLMProvider) (v : string) : string :=
  match find_provider providers v with
  | Some p => if Str.is_empty (label p) then v else label p
  | None => v
  end.

(** [handleProviderChange]: [form.setFieldsValue({ api_base, model_name })]
    when the provider is found, with [models[0] || ''] for the model. *)
Definition handleProviderChange
  (providers : list LLMProvider) (v : string) (form : list (string * JSON))
  : list (string * JSON) :=
  match find_provider providers v with
  | Some p =>
      Obj.set "model_name" (JStr (hd "" (models p)))
        (Obj.set "api_base" (JStr (default_base p)) form)
  | None => form
  end.

(** The state of the page around its add/edit dialog; [configs] is
    whatever the list endpoint answered. *)
Record Page : Type := mkPage {
  configs : JSON;
  loading : bool;
  modalVisible : bool;
  editingConfig : option LLMConfig;
  form : list (string * JSON);
  notices : list Ui.Notice
}.

Definition list_request : Frontend.RequestConfig := Ui.call "get" "/llm-configs" JNull.

(** [loadConfigs], once its request has settled. *)
Definition loadConfigs (o : Frontend.Promise JSON) (st : Page) : Page :=
  match o with
  | Frontend.Resolved d =>
      {| configs := d; loading := false; modalVisible := modalVisible st;
         editingConfig := editingConfig st; form := form st; notices := notices st |}
  | Frontend.Rejected _ =>
      {| configs := configs st; loading := false; modalVisible := modalVisible st;
         editingConfig := editingConfig st; form := form st;
         notices := notices st ++ [Ui.Error (JStr "加载配置列表失败")] |}
  end.

(** The request of [handleCreate]: a PUT to the edited configuration, or a
    POST. *)
Definition save_request (st : Page) (values : list (string * JSON)) : Frontend.RequestConfig :=
  match editingConfig st with
  | Some r => Ui.call "put" ("/llm-configs/" ++ id r) (JObj values)
  | None => Ui.call "post" "/llm-configs" (JObj values)
  end.

(** [record.api_base], which may be undefined; the form shows an empty
    field for undefined as for null. *)
Definition base_value (b : option string) : JSON :=
  match b with
  | Some s => JStr s
  | None => JNull
  end.

(** [handleEdit] *)
Definition handleEdit (r : LLMConfig) (st : Page) : Page :=
  {| configs := configs st;
     loading := loading st;
     modalVisible := true;
     editingConfig := Some r;
     form :=
       Obj.set "is_default" (JBool (is_default r))
         (Obj.set "max_tokens" (JInt (max_tokens r))
            (Obj.set "temperature" (JFloat (temperature r))
               (Obj.set "api_base" (base_value (api_base r))
                  (Obj.set "model_name" (JStr (model_name r))
                     (Obj.set "provider" (JStr (provider r))
                        (Obj.set "name" (JStr (name r)) (form st)))))));
     notices := notices st |}.

Section Dialog.

(** [form.resetFields()] of the form library. *)
Variable reset : list (string * JSON) -> list (string * JSON).

(** The button that opens the dialog for a new configuration. *)
Definition openAdd (st : Page) : Page :=
  {| configs := configs st; loading := loading st; modalVisible := true;
     editingConfig := None; form := reset (form st); notices := notices st |}.

(** [onCancel] of the dialog. *)
Definition cancel (st : Page) : Page :=
  {| configs := configs st; loading := loading st; modalVisible := false;
     editingConfig := None; form := reset (form st); notices := notices st |}.

(** [handleCreate], with the requests it issued.  [loadConfigs] is started
    and not awaited; its effect is applied once it has settled. *)
Definition handleCreate
  (values : list (string * JSON)) (client : Frontend.RequestConfig -> Frontend.Promise JSON)
  (st : Page) : Page * list Frontend.RequestConfig :=
  match client (save_request st values) with
  | Frontend.Resolved _ =>
      (loadConfigs (client list_request)
         {| configs := configs st; loading := loading st; modalVisible := false;
            editingConfig := None; form := reset (form st);
            notices :=
              notices st ++
              [Ui.Success (match editingConfig st with
                           | Some _ => "更新成功"
                           | None => "创建成功"
                           end)] |},
       [save_request st values; list_request])
  | Frontend.Rejected e =>
      ({| configs := configs st; loading := loading st; modalVisible := modalVisible st;
          editingConfig := editingConfig st; form := form st;
          notices := notices st ++ [Ui.Error (Ui.detail_or "操作失败" e)] |},
       [save_request st values])
  end.

(** [handleDelete] *)
Definition handleDelete
  (i : string) (client : Frontend.RequestConfig -> Frontend.Promise JSON)
  (st : Page) : Page * list Frontend.RequestConfig :=
  match client (Ui.call "delete" ("/llm-configs/" ++ i) JNull) with
  | Frontend.Resolved _ =>
      (loadConfigs (client list_request)
         {| configs := configs st; loading := loading st; modalVisible := modalVisible st;
            editingConfig := editingConfig st; form := form st;
            notices := notices st ++ [Ui.Success "删除成功"] |},
       [Ui.call "delete" ("/llm-configs/" ++ i) JNull; list_request])
  | Frontend.Rejected _ =>
      ({| configs := configs st; loading := loading st; modalVisible := modalVisible st;
          editingConfig := editingConfig st; form := form st;
          notices := notices st ++ [Ui.Error (JStr "删除失败")] |},
       [Ui.call "delete" ("/llm-configs/" ++ i) JNull])
  end.

(** What the user does on the page, each with the client's answers at that
    time. *)
Inductive Event : Type :=
| Add
| Edit (r : LLMConfig)
| Cancel
| Save (values : list (string * JSON))
       (client : Frontend.RequestConfig -> Frontend.Promise JSON)
| Delete (i : string) (client : Frontend.RequestConfig -> Frontend.Promise JSON).

Definition step (ev : Event) (st : Page) : Page * list Frontend.RequestConfig :=
  match ev with
  | Add => (openAdd st, [])
  | Edit r => (handleEdit r st, [])
  | Cancel => (cancel st, [])
  | Save values client => handleCreate values client st
  | Delete i client => handleDelete i client st
  end.

(** A sequence of events, with every request issued on the way. *)
Fixpoint run_events (evs : list Event) (st : Page) : Page * list Frontend.RequestConfig :=
  match evs with
  | [] => (st, [])
  | ev :: evs' =>
      let (st1, l1) := step ev st in
      let (st2, l2) := run_events evs' st1 in
      (st2, (l1 ++ l2)%list)
  end.

End Dialog.

(** Events that are all saves, each rejected by the client of its time
    when sent from the dialog as [st] has it. *)
Definition all_rejected (st : Page) (evs : list Event) : Prop :=
  Forall (fun ev => exists values client e,
            ev = Save values client /\
            client (save_request st values) = Frontend.Rejected e) evs.

(** The page as it is first rendered. *)
Definition initial : Page :=
  {| configs := JArr []; loading := false; modalVisible := false;
     editingConfig := None; form := []; notices := [] |}.

End LLMConfigPage.

(** ** The data source page (pages/DataSource.tsx): creating a source *)

Module DataSourcePage.
Import Json.

Record Page : Type := mkPage {
  datasources : JSON;
  loading : bool;
  modalVisible : bool;
  form : list (string * JSON);
  notices : list Ui.Notice
}.

Definition list_request : Frontend.RequestConfig := Ui.call "get" "/datasources" JNull.

(** [loadDatasources], once its request has settled. *)
Definition loadDatasources (o : Frontend.Promise JSON) (st : Page) : Page :=
  match o with
  | Frontend.Resolved d =>
      {| datasources := d; loading := false; modalVisible := modalVisible st;
         form := form st; notices := notices st |}
  | Frontend.Rejected _ =>
      {| datasources := datasources st; loading := false; modalVisible := modalVisible st;
         form := form st; notices := notices st ++ [Ui.Error (JStr "加载数据源失败")] |}
  end.

Section Library.

(** [JSON.parse] of the runtime, [None] where it throws, and
    [form.resetFields()] of the form library. *)
Variable parse : string -> option JSON.
Variable reset : list (string * JSON) -> list (string * JSON).

(** [typeof v === 'string' ? JSON.parse(v) : v] *)
Definition decode_field (v : JSON) : option JSON :=
  match v with
  | JStr s => parse s
  | _ => Some v
  end.

(** [values.f ? (typeof values.f === 'string' ? JSON.parse(values.f)
    : values.f) : null], on a field that may be absent *)
Definition optional_field (v : option JSON) : option JSON :=
  match v with
  | Some x => if ChatPage.js_truthy x then decode_field x else Some JNull
  | None => Some JNull
  end.

(** [{ ...values, config: ..., schema_info: ..., examples: ... }] as it
    goes on the wire, [None] when a field does not parse.  An absent
    config stays absent: its member would be undefined, which is not
    serialized. *)
Definition build_data (values : list (string * JSON)) : option (list (string * JSON)) :=
  let with_config :=
    match Obj.get "config" values with
    | Some v =>
        match decode_field v with
        | Some c => Some (Obj.set "config" c values)
        | None => None
        end
    | None => Some values
    end in
  match with_config,
        optional_field (Obj.get "schema_info" values),
        optional_field (Obj.get "examples" values) with
  | Some d, Some s, Some e => Some (Obj.set "examples" e (Obj.set "schema_info" s d))
  | _, _, _ => None
  end.

(** [handleCreate], with the requests it issued.  A field that does not
    parse throws before the request; the error then has no response. *)
Definition handleCreate
  (values : list (string * JSON)) (client : Frontend.RequestConfig -> Frontend.Promise JSON)
  (st : Page) : Page * list Frontend.RequestConfig :=
  match build_data values with
  | None =>
      ({| datasources := datasources st; loading := loading st;
          modalVisible := modalVisible st; form := form st;
          notices := notices st ++ [Ui.Error (JStr "创建失败")] |},
       [])
  | Some d =>
      match client (Ui.call "post" "/datasources" (JObj d)) with
      | Frontend.Resolved _ =>
          (loadDatasources (client list_request)
             {| datasources := datasources st; loading := loading st;
                modalVisible := false; form := reset (form st);
                notices := notices st ++ [Ui.Success "创建成功"] |},
           [Ui.call "post" "/datasources" (JObj d); list_request])
      | Frontend.Rejected e =>
          ({| datasources := datasources st; loading := loading st;
              modalVisible := modalVisible st; form := form st;
              notices := notices st ++ [Ui.Error (Ui.detail_or "创建失败" e)] |},
           [Ui.call "post" "/datasources" (JObj d)])
      end
  end.

End Library.

End DataSourcePage.

(** ** The interface page (pages/Interface.tsx): creating an interface *)

Module InterfacePage.
Import Json.

Record Page : Type := mkPage {
  interfaces : JSON;
  loading : bool;
  modalVisible : bool;
  form : list (string * JSON);
  notices : list Ui.Notice
}.

Definition list_request : Frontend.RequestConfig := Ui.call "get" "/interfaces" JNull.

(** [loadInterfaces], once its request has settled. *)
Definition loadInterfaces (o : Frontend.Promise JSON) (st : Page) : Page :=
  match o with
  | Frontend.Resolved d =>
      {| interfaces := d; loading := false; modalVisible := modalVisible st;
         form := form st; notices := notices st |}
  | Frontend.Rejected _ =>
      {| interfaces := interfaces st; loading := false; modalVisible := modalVisible st;
         form := form st; notices := notices st ++ [Ui.Error (JStr "加载接口失败")] |}
  end.

Section Library.

(** [JSON.parse] of the runtime, [None] where it throws; the text it makes
    of an argument that is not a string; [form.resetFields()]. *)
Variable parse : string -> option JSON.
Variable to_text : JSON -> string.
Variable reset : list (string * JSON) -> list (string * JSON).

(** [JSON.parse(v)] *)
Definition parse_value (v : JSON) : option JSON :=
  match v with
  | JStr s => parse s
  | _ => parse (to_text v)
  end.

(** [if (values.k) { values.k = JSON.parse(values.k) }], [None] when the
    parse throws *)
Definition parse_field (k : string) (values : list (string * JSON))
  : option (list (string * JSON)) :=
  match Obj.get k values with
  | Some v =>
      if ChatPage.js_truthy v then
        match parse_value v with
        | Some x => Some (Obj.set k x values)
        | None => None
        end
      else Some values
  | None => Some values
  end.

Definition build_data (values : list (string * JSON)) : option (list (string * JSON)) :=
  match parse_field "config" values with
  | Some v1 => parse_field "parameters" v1
  | None => None
  end.

(** [handleCreate], with the requests it issued. *)
Definition handleCreate
  (values : list (string * JSON)) (client : Frontend.RequestConfig -> Frontend.Promise JSON)
  (st : Page) : Page * list Frontend.RequestConfig :=
  match build_data values with
  | None =>
      ({| interfaces := interfaces st; loading := loading st;
          modalVisible := modalVisible st; form := form st;
          notices := notices st ++ [Ui.Error (JStr "创建失败")] |},
       [])
  | Some d =>
      match client (Ui.call "post" "/interfaces" (JObj d)) with
      | Frontend.Resolved _ =>
          (loadInterfaces (client list_request)
             {| interfaces := interfaces st; loading := loading st;
                modalVisible := false; form := reset (form st);
                notices := notices st ++ [Ui.Success "创建成功"] |},
           [Ui.call "post" "/interfaces" (JObj d); list_request])
      | Frontend.Rejected e =>
          ({| interfaces := interfaces st; loading := loading st;
              modalVisible := modalVisible st; form := form st;
              notices := notices st ++ [Ui.Error (Ui.detail_or "创建失败" e)] |},
           [Ui.call "post" "/interfaces" (JObj d)])
      end
  end.

End Library.

End InterfacePage.

(** ** The login page (pages/Login.tsx): signing in *)

Module LoginPage.
Import Json Frontend.

Record State : Type := mkState {
  browser : Browser;
  loading : bool;
  notices : list Ui.Notice
}.

(** [authAPI.login(values)]: the form values, sent url-encoded. *)
Definition login_request (values : JSON) : RequestConfig :=
  {| cfg_method := "post";
     cfg_url := "/auth/login";
     cfg_headers := [("Content-Type", "application/x-www-form-urlencoded")];
     cfg_data := values |}.

(** [authAPI.me()] *)
Definition me_request : RequestConfig := Ui.call "get" "/auth/me" JNull.

Section Store.

(** [setToken] and [setUser] of store/authStore, which is not among the
    sources; [setToken] receives [tokenData.access_token], absent when the
    answer has no such member. *)
Variable setToken : option JSON -> AuthState -> AuthState.
Variable setUser : JSON -> AuthState -> AuthState.

Definition failed (shown : JSON) (b : Browser) (st : State) : State :=
  {| browser := b; loading := false;
     notices := notices st ++ [Ui.Error shown] |}.

(** [onFinish], with the requests as they left the client.  Reading
    [access_token] off a null answer throws inside the [try]. *)
Definition onFinish
  (values : JSON) (server : RequestConfig -> option AxiosResponse) (st : State)
  : State * list RequestConfig :=
  let b0 := browser st in
  let sent1 := on_request (login_request values) b0 in
  match Ui.exchange server (login_request values) b0 with
  | (Rejected e, b1) => (failed (Ui.detail_or "登录失败" e) b1 st, [sent1])
  | (Resolved JNull, b1) => (failed (JStr "登录失败") b1 st, [sent1])
  | (Resolved d, b1) =>
      let b2 := {| auth := setToken (member "access_token" d) (auth b1);
                   href := href b1 |} in
      let sent2 := on_request me_request b2 in
      match Ui.exchange server me_request b2 with
      | (Rejected e, b3) => (failed (Ui.detail_or "登录失败" e) b3 st, [sent1; sent2])
      | (Resolved u, b3) =>
          ({| browser := {| auth := setUser u (auth b3); href := "/" |};
              loading := false;
              notices := notices st ++ [Ui.Success "登录成功"] |},
           [sent1; sent2])
      end
  end.

End Store.

End LoginPage.

(** ** Concrete configurations and transports *)

Module Examples.
Import Json Http Adapter.

Definition doc_params : GenParams := {| temperature := 7 # 10; max_tokens := 2000 |}.

Definition history : list Message :=
  [mkMessage System "x"; mkMessage User "hello"].

Definition qwen (k : ProviderKind) (base : option string) : ProviderProfile :=
  {| kind := k; model_name := "qwen-max"; api_base := base;
     credential := "cred-1"; params := doc_params |}.

Definition compat_base : string := "https://dashscope.aliyuncs.com/compatible-mode/v1".

Definition chat (p : ProviderProfile) : ChatRequest :=
  {| messages := history; profile := p; stream := false |}.

Definition store_with (key : string) : CredentialStore := fun _ => Some key.

Definition answer (s : Z) (j : JSON) : Transport :=
  fun _ => Responded {| Http.status := s; text := ""; json := Some j |}.

(** A mocked OpenAI-compatible answer: choices[0].message.content = "hi". *)
Definition openai_hi : JSON :=
  JObj [("choices",
         JArr [JObj [("message",
                      JObj [("role", JStr "assistant"); ("content", JStr "hi")])]])].


(** An error body with the provider's own message, and an answer that is
    not JSON at all. *)
Definition key_error : JSON :=
  JObj [("error", JObj [("message", JStr "Incorrect API key")])].


(** A logged-in browser and a 401 answer of the backend. *)
Definition logged_in : Frontend.Browser :=
  {| Frontend.auth := {| Frontend.token := Some "jwt"; Frontend.user := None |};
     Frontend.href := "/chat" |}.

Definition unauthorized : Frontend.AxiosResponse :=
  {| Frontend.status := 401; Frontend.data := JObj [("detail", JStr "未授权")] |}.

Definition fine : Frontend.AxiosResponse :=
  {| Frontend.status := 200; Frontend.data := JObj [("content", JStr "hello")] |}.

Definition a_request : Frontend.RequestConfig :=
  {| Frontend.cfg_method := "get"; Frontend.cfg_url := "/auth/me";
     Frontend.cfg_headers := []; Frontend.cfg_data := JNull |}.

(** A chat in progress, with a message typed; a blank test that knows the
    space only; a client that cannot reach the server. *)
Fixpoint only_spaces (s : string) : bool :=
  match s with
  | EmptyString => true
  | String c s' => Ascii.eqb c " "%char && only_spaces s'
  end.

Definition typing : ChatPage.State :=
  {| ChatPage.messages :=
       [ChatPage.mkMsg "user" (Some (JStr "hi"));
        ChatPage.mkMsg "assistant" (Some (JStr "hello"))];
     ChatPage.inputMessage := "how are you";
     ChatPage.loading := false;
     ChatPage.currentConversation := Some {| ChatPage.id := "c1" |};
     ChatPage.notices := [] |}.

Definition unreachable : Frontend.RequestConfig -> Frontend.Promise JSON :=
  fun _ => Frontend.Rejected {| Frontend.response := None |}.

(** A row of the configuration table, a form library that empties the
    form, and a client that accepts everything. *)
Definition row : LLMConfigPage.LLMConfig :=
  {| LLMConfigPage.id := "cfg-1";
     LLMConfigPage.name := "qwen";
     LLMConfigPage.provider := "aliyun";
     LLMConfigPage.model_name := "qwen-max";
     LLMConfigPage.api_base := Some compat_base;
     LLMConfigPage.temperature := 7 # 10;
     LLMConfigPage.max_tokens := 2000;
     LLMConfigPage.is_default := true;
     LLMConfigPage.is_active := true;
     LLMConfigPage.has_api_key := true |}.

Definition emptied : list (string * JSON) -> list (string * JSON) := fun _ => [].

Definition accepting : Frontend.RequestConfig -> Frontend.Promise JSON :=
  fun _ => Frontend.Resolved (JArr []).

(** A parser that knows the empty object and the empty array, and two
    forms of the data source dialog. *)
Definition toy_parse (s : string) : option JSON :=
  if String.eqb s "{}" then Some (JObj [])
  else if String.eqb s "[]" then Some (JArr [])
  else None.

Definition source_values : list (string * JSON) :=
  [("name", JStr "orders"); ("type", JStr "mysql"); ("config", JStr "{}");
   ("schema_info", JStr "")].

Definition bad_values : list (string * JSON) :=
  [("name", JStr "orders"); ("config", JStr "{oops")].

(** The interface dialog with its two texts left empty, the text the
    runtime makes of an object, and the interface page with its dialog
    open. *)
Definition blank_values : list (string * JSON) :=
  [("name", JStr "orders"); ("config", JStr "")].

Definition object_text : JSON -> string := fun _ => "[object Object]".

Definition interface_list : InterfacePage.Page :=
  {| InterfacePage.interfaces := JArr []; InterfacePage.loading := false;
     InterfacePage.modalVisible := true; InterfacePage.form := blank_values;
     InterfacePage.notices := [] |}.

Definition sources : DataSourcePage.Page :=
  {| DataSourcePage.datasources := JArr []; DataSourcePage.loading := false;
     DataSourcePage.modalVisible := true; DataSourcePage.form := source_values;
     DataSourcePage.notices := [] |}.

(** An auth store that keeps a string token, a browser at the login page,
    and two servers: one that answers both calls, one whose profile
    endpoint is down. *)
Definition store_token (t : option JSON) (a : Frontend.AuthState) : Frontend.AuthState :=
  {| Frontend.token := match t with Some (JStr s) => Some s | _ => None end;
     Frontend.user := Frontend.user a |}.

Definition store_user (u : JSON) (a : Frontend.AuthState) : Frontend.AuthState :=
  {| Frontend.token := Frontend.token a; Frontend.user := Some u |}.

Definition logged_out : Frontend.Browser :=
  {| Frontend.auth := {| Frontend.token := None; Frontend.user := None |};
     Frontend.href := "/login" |}.

Definition signing_in : LoginPage.State :=
  {| LoginPage.browser := logged_out; LoginPage.loading := false;
     LoginPage.notices := [] |}.

Definition token_reply : Frontend.AxiosResponse :=
  {| Frontend.status := 200;
     Frontend.data := JObj [("access_token", JStr "jwt-1"); ("token_type", JStr "bearer")] |}.

Definition profile_reply : Frontend.AxiosResponse :=
  {| Frontend.status := 200; Frontend.data := JObj [("username", JStr "alice")] |}.

Definition auth_server (c : Frontend.RequestConfig) : option Frontend.AxiosResponse :=
  if String.eqb (Frontend.cfg_url c) "/auth/login" then Some token_reply
  else Some profile_reply.

Definition profile_down (c : Frontend.RequestConfig) : option Frontend.AxiosResponse :=
  if String.eqb (Frontend.cfg_url c) "/auth/login" then Some token_reply
  else Some {| Frontend.status := 500; Frontend.data := JNull |}.

End Examples.

(** * Properties *)

Import Json Http Adapter.

(** ** Strings *)

Lemma ends_with_app (suf pre : string) :
  Str.ends_with suf (pre ++ suf) = true.
Proof.
  induction pre as [|c pre IH]; simpl.
  - destruct suf; simpl; rewrite ?Ascii.eqb_refl, ?String.eqb_refl; reflexivity.
  - rewrite IH. apply orb_true_r.
Qed.

Lemma last_char_app (s t : string) :
  t <> EmptyString -> Str.last_char (s ++ t) = Str.last_char t.
Proof.
  intros Ht. induction s as [|c s IH]; [reflexivity|].
  simpl. rewrite IH.
  destruct (s ++ t) eqn:E; [|reflexivity].
  destruct s; simpl in E; [congruence|discriminate].
Qed.

Lemma ends_with_last (suf s : string) :
  suf <> EmptyString -> Str.ends_with suf s = true ->
  Str.last_char s = Str.last_char suf.
Proof.
  intros Hs. induction s as [|c s IH]; simpl; intros H.
  - rewrite orb_false_r in H. apply String.eqb_eq in H. congruence.
  - apply orb_true_iff in H. destruct H as [H|H].
    + apply String.eqb_eq in H. rewrite H. reflexivity.
    + rewrite <- (IH H).
      destruct s; [|reflexivity].
      simpl in H. rewrite orb_false_r in H.
      apply String.eqb_eq in H. congruence.
Qed.

(** The native target never ends in the chat-completions path. *)
Lemma native_url_not_chat (base : string) :
  Str.ends_with chat_path (native_url base) = false.
Proof.
  destruct (Str.ends_with chat_path (native_url base)) eqn:E; [|reflexivity].
  apply ends_with_last in E; [|discriminate].
  unfold native_url in E. rewrite last_char_app in E; discriminate.
Qed.

Lemma compat_url_chat (base : string) :
  Str.ends_with chat_path (compat_url base) = true.
Proof. apply ends_with_app. Qed.

(** ** The adapter *)

(** *** Occurrences and trailing slashes *)

Lemma prefix_intro (a post : string) : String.prefix a (a ++ post) = true.
Proof.
  induction a as [|c a IH]; simpl.
  - destruct post; reflexivity.
  - destruct (Ascii.ascii_dec c c); [exact IH|congruence].
Qed.


(** [sub in s] holds exactly of the strings in which [sub] occurs. *)
Lemma contains_intro (sub pre post : string) :
  Str.contains sub (pre ++ sub ++ post) = true.
Proof.
  induction pre as [|c pre IH].
  - pose proof (prefix_intro sub post) as H.
    change ("" ++ sub ++ post) with (sub ++ post).
    revert H. destruct (sub ++ post); intros H; cbn [Str.contains]; rewrite H;
      reflexivity.
  - simpl. rewrite IH. apply orb_true_r.
Qed.




(** [s.rstrip(c)] cuts a run of [c] off the end of [s], and all of it. *)
Lemma rstrip_spec (c : ascii) (s : string) :
  exists tail,
    s = Str.rstrip c s ++ tail /\
    (forall x, In x (list_ascii_of_string tail) -> x = c) /\
    (forall s', Str.rstrip c s <> s' ++ String c "").
Proof.
  induction s as [|a s IH].
  - exists "". repeat split; [intros x []|].
    intros [|d s'] E; discriminate E.
  - destruct IH as (tail & E & Hall & Hend). simpl.
    destruct (Str.rstrip c s) as [|r0 r] eqn:R.
    + simpl in E. subst tail.
      destruct (Ascii.eqb_spec a c) as [->|Hac].
      * exists (String c s). repeat split.
        -- intros x [<-|Hx]; [reflexivity|apply Hall; exact Hx].
        -- intros [|d s'] E'; discriminate E'.
      * exists s. repeat split; [exact Hall|].
        intros [|d s'] E'; simpl in E'; [congruence|].
        injection E' as _ E'. destruct s'; discriminate E'.
    + exists tail. repeat split.
      * simpl. rewrite E at 1. reflexivity.
      * exact Hall.
      * intros [|d s'] E'; simpl in E'; [discriminate E'|].
        injection E' as _ E'. exact (Hend _ E').
Qed.

Lemma rstrip_id (c : ascii) (s : string) :
  (forall s', s <> s' ++ String c "") -> Str.rstrip c s = s.
Proof.
  induction s as [|a s IH]; [reflexivity|].
  intros H. simpl.
  assert (Hs : s = "" \/ Str.rstrip c s = s /\ s <> "").
  { destruct s as [|b s']; [left; reflexivity|right]. split; [|discriminate].
    apply IH. intros s'' E. apply (H (String a s'')). simpl. rewrite E. reflexivity. }
  destruct Hs as [->|[-> Hne]].
  - simpl. destruct (Ascii.eqb_spec a c) as [->|]; [|reflexivity].
    destruct (H "" eq_refl).
  - destruct s; [congruence|reflexivity].
Qed.


Section AdapterProperties.

Variable body_limit : nat.

(** Running [send]: the answer to its request, normalized, and that request
    as the whole log. *)
Lemma run_send (store : CredentialStore) (req : ChatRequest) (t : Transport) :
  run t (send body_limit store req) =
  (normalize body_limit (shape_of (dispatch (profile req)))
     (t (build_request store req)),
   [build_request store req]).
Proof. reflexivity. Qed.

Lemma result_send (store : CredentialStore) (req : ChatRequest) (t : Transport) :
  result_of t (send body_limit store req) =
  normalize body_limit (shape_of (dispatch (profile req)))
    (t (build_request store req)).
Proof. reflexivity. Qed.

Lemma calls_send (store : CredentialStore) (req : ChatRequest) (t : Transport) :
  calls_of t (send body_limit store req) = [build_request store req].
Proof. reflexivity. Qed.


Lemma normalize_non_2xx (s : Shape) (r : HttpResponse) :
  is_2xx (Http.status r) = false ->
  normalize body_limit s (Responded r) =
  Fail (failure body_limit (classify_status (Http.status r)) r).
Proof. intros H. cbn [normalize]. rewrite H. reflexivity. Qed.

(** *** Dispatch *)


Lemma base_set (p : ProviderProfile) (b : string) :
  api_base p = Some b -> b <> "" -> base_of p = Some b.
Proof.
  intros H Hne. unfold base_of. rewrite H.
  destruct b; [congruence|reflexivity].
Qed.

(** The target and the shape of a request are those of the sketch. *)
Lemma dispatch_agrees_with_sketch (p : ProviderProfile) :
  (target_url p, shape_of (dispatch p)) = sketch_target (api_base p).
Proof.
  unfold target_url, dispatch, base_of, sketch_target.
  destruct (api_base p) as [b|]; [|reflexivity].
  destruct (Str.is_empty b); [reflexivity|].
  destruct (Str.contains marker b); reflexivity.
Qed.

(** C2. For every profile whose base URL contains the compatibility-mode
    marker, [send] issues one POST to <base>/chat/completions, the base
    being the base URL without the slashes it may end in (so that no
    doubled slash precedes the path), with one JSON object of model,
    messages, temperature and max_tokens; the messages member is the list
    of role+content pairs of the request, one per message, each as given
    and in the order given. *)
Theorem marker_request
  (store : CredentialStore) (req : ChatRequest) (t : Transport) (b : string)
  (Hbase : api_base (profile req) = Some b)
  (Hmark : exists pre post, b = pre ++ "compatible-mode" ++ post) :
  exists r stem slashes,
    calls_of t (send body_limit store req) = [r] /\
    method r = "POST" /\
    b = stem ++ slashes /\
    (forall c, In c (list_ascii_of_string slashes) -> c = "/"%char) /\
    (forall s, stem <> s ++ "/") /\
    url r = stem ++ "/chat/completions" /\
    ((forall s, b <> s ++ "/") -> url r = b ++ "/chat/completions") /\
    sketch_target (api_base (profile req)) = (url r, OpenAIShape) /\
    body r =
      JObj [("model", JStr (model_name (profile req)));
            ("messages",
             JArr (map (fun m =>
                          JObj [("role", JStr match role m with
                                              | System => "system"
                                              | User => "user"
                                              | Assistant => "assistant"
                                              end);
                                ("content", JStr (content m))])
                       (messages req)));
            ("temperature", JFloat (temperature (params (profile req))));
            ("max_tokens", JInt (max_tokens (params (profile req))))].
Proof.
  destruct Hmark as (pre & post & Hocc).
  assert (Hm : Str.contains marker b = true) by (rewrite Hocc; apply contains_intro).
  assert (Hne : b <> "") by (intros ->; discriminate Hm).
  pose proof (base_set _ _ Hbase Hne) as Hb.
  pose proof (dispatch_agrees_with_sketch (profile req)) as Hs.
  assert (Hu : target_url (profile req) = compat_url b)
    by (unfold target_url; rewrite Hb, Hm; reflexivity).
  assert (Hd : dispatch (profile req) = ByMarker)
    by (unfold dispatch; rewrite Hb, Hm; reflexivity).
  destruct (rstrip_spec "/"%char b) as (tail & E & Hall & Hend).
  exists (build_request store req), (Str.rstrip "/"%char b), tail.
  split; [apply calls_send|].
  unfold build_request. cbn [method url body].
  rewrite Hu, Hd. cbn [shape_of body_for].
  repeat split.
  - exact E.
  - exact Hall.
  - exact Hend.
  - intros Hno. unfold compat_url. rewrite (rstrip_id _ _ Hno). reflexivity.
  - rewrite <- Hs, Hu, Hd. reflexivity.
Qed.



(** C8. Every invocation of [send] performs one outbound call and no more,
    whatever the transport answers, a failure included; nothing is carried
    from one invocation to the next: the outcome is decided by the answer
    to that one request. *)
Theorem send_single_call
  (store : CredentialStore) (req : ChatRequest) (t : Transport) :
  (length (calls_of t (send body_limit store req)) <= 1)%nat /\
  calls_of t (send body_limit store req) =
    [build_request store req] /\
  (exists f, send body_limit store req =
             Call (build_request store req) (fun o => Ret (f o))) /\
  (forall t' : Transport,
     t' (build_request store req) =
     t (build_request store req) ->
     run t' (send body_limit store req) =
     run t (send body_limit store req)).
Proof.
  rewrite calls_send. repeat split.
  - cbn. lia.
  - eexists. reflexivity.
  - intros t' H. rewrite !run_send, H. reflexivity.
Qed.

(** *** Reading the answer *)



(** C5. For every answer with status 401, whatever the profile, [send]
    returns an error of kind authentication with the status attached, whose
    hint is the documented 401 message: it names the failure and asks to
    check that the key is correct and of the form sk-xxx, that it is
    activated, and that it has the permissions needed; the provider's own
    message, when the body has one, comes after it. *)
Theorem status_401_authentication
  (store : CredentialStore) (req : ChatRequest) (t : Transport) (resp : HttpResponse)
  (Hans : t (build_request store req) = Responded resp)
  (H401 : Http.status resp = 401%Z) :
  exists e,
    result_of t (send body_limit store req) = Fail e /\
    err_kind e = Authentication /\
    err_status e = Some 401%Z /\
    err_hint e =
      "API密钥认证失败（401 Unauthorized）。" ++ String "010"%char
      ("请检查：" ++ String "010"%char
       ("1. API密钥是否正确（格式：sk-xxx）" ++ String "010"%char
        ("2. API密钥是否已激活" ++ String "010"%char
         ("3. API密钥是否有足够的权限" ++ detail_of resp)))).
Proof.
  rewrite result_send, Hans.
  rewrite normalize_non_2xx by (rewrite H401; reflexivity).
  eexists. split; [reflexivity|].
  unfold failure. cbn [err_kind err_status err_hint]. rewrite H401.
  change (classify_status 401) with Authentication.
  repeat split.
Qed.


End AdapterProperties.

(** *** The theorems at concrete requests *)

Import Examples.

Lemma marker_request_witness :
  exists r,
    calls_of (answer 200 openai_hi)
      (send 200 (store_with "sk-test")
         (chat (qwen AlibabaCompatible (Some (compat_base ++ "/"))))) = [r] /\
    url r = "https://dashscope.aliyuncs.com/compatible-mode/v1/chat/completions" /\
    exists stem slashes,
      compat_base ++ "/" = stem ++ slashes /\
      url r = stem ++ "/chat/completions".
Proof.
  destruct (marker_request 200 (store_with "sk-test")
              (chat (qwen AlibabaCompatible (Some (compat_base ++ "/"))))
              (answer 200 openai_hi) (compat_base ++ "/") eq_refl
              (ex_intro _ "https://dashscope.aliyuncs.com/"
                 (ex_intro _ "/v1/" eq_refl)))
    as (r & stem & slashes & Hc & _ & Hb & _ & _ & Hu & _).
  exists r. split; [exact Hc|]. split.
  - vm_compute in Hc. injection Hc as <-. reflexivity.
  - exists stem, slashes. split; [exact Hb|exact Hu].
Defined.




Lemma send_single_call_witness :
  calls_of (fun _ => TransportFailure)
    (send 200 (store_with "sk-test")
       (chat (qwen AlibabaCompatible None))) =
  [build_request (store_with "sk-test")
     (chat (qwen AlibabaCompatible None))].
Proof.
  exact (proj1 (proj2 (send_single_call 200 (store_with "sk-test")
                         (chat (qwen AlibabaCompatible None))
                         (fun _ => TransportFailure)))).
Defined.


Lemma status_401_authentication_witness :
  exists e,
    result_of (answer 401 key_error)
      (send 200 (store_with "sk-wrong")
         (chat (qwen OpenAICompatible None))) = Fail e /\
    err_kind e = Authentication /\
    err_hint e = auth_hint ++ nl ++ "Incorrect API key".
Proof.
  destruct (status_401_authentication 200 (store_with "sk-wrong")
              (chat (qwen OpenAICompatible None))
              (answer 401 key_error)
              _ eq_refl eq_refl)
    as (e & He & Hk & _ & Hh).
  exists e. split; [exact He|]. split; [exact Hk|exact Hh].
Defined.


(** ** The frontend client *)

Section FrontendProperties.
Import Frontend.

(** C10. For every call through the shared client, an answer with status
    401 clears the stored token, sets the location to /login, and rejects
    with the error, the answer attached; it never resolves to a value. *)
Theorem unauthorized_logs_out
  (r : AxiosResponse) (b : Browser)
  (H401 : Frontend.status r = 401%Z) :
  (forall e, response e = Some r ->
     on_rejected e b = (Rejected e, {| auth := logout (auth b); href := "/login" |})) /\
  receive r b =
    (Rejected {| response := Some r |},
     {| auth := logout (auth b); href := "/login" |}) /\
  token (auth (snd (receive r b))) = None /\
  href (snd (receive r b)) = "/login" /\
  (forall v, fst (receive r b) <> Resolved v).
Proof.
  assert (Hrej : forall e, response e = Some r ->
            on_rejected e b =
            (Rejected e, {| auth := logout (auth b); href := "/login" |})).
  { intros e He. unfold on_rejected, status_is_401. rewrite He, H401. reflexivity. }
  assert (Hrec : receive r b =
            (Rejected {| response := Some r |},
             {| auth := logout (auth b); href := "/login" |})).
  { unfold receive, settle. rewrite H401. cbn [intercept Z.leb Z.ltb Z.compare
      Pos.compare Pos.compare_cont andb]. apply Hrej. reflexivity. }
  split; [exact Hrej|]. split; [exact Hrec|].
  rewrite Hrec. cbn. repeat split. discriminate.
Qed.

End FrontendProperties.

Lemma unauthorized_logs_out_witness :
  Frontend.status unauthorized = 401%Z /\
  Frontend.token (Frontend.auth (snd (Frontend.receive unauthorized logged_in))) = None /\
  Frontend.href (snd (Frontend.receive unauthorized logged_in)) = "/login".
Proof.
  split; [reflexivity|].
  destruct (unauthorized_logs_out unauthorized logged_in eq_refl)
    as (_ & _ & Ht & Hh & _).
  split; [exact Ht|exact Hh].
Defined.

(** *** Objects as maps *)

Lemma get_set_same {A : Type} (k : string) (v : A) (o : list (string * A)) :
  Obj.get k (Obj.set k v o) = Some v.
Proof.
  induction o as [|[k' v'] o IH]; cbn.
  - rewrite String.eqb_refl. reflexivity.
  - destruct (String.eqb k k') eqn:E; cbn.
    + rewrite String.eqb_refl. reflexivity.
    + rewrite E. exact IH.
Qed.

Lemma get_set_other {A : Type} (k k0 : string) (v : A) (o : list (string * A)) :
  k0 <> k -> Obj.get k0 (Obj.set k v o) = Obj.get k0 o.
Proof.
  intros N. apply String.eqb_neq in N.
  induction o as [|[k' v'] o IH]; cbn.
  - rewrite N. reflexivity.
  - destruct (String.eqb k k') eqn:E; cbn.
    + apply String.eqb_eq in E. subst k'. rewrite N. reflexivity.
    + rewrite IH. reflexivity.
Qed.

Section ClientProperties.
Import Frontend.

(** X1. The request interceptor writes the stored token into the
    Authorization header as a bearer token, and nothing else: method, URL,
    data and every other header stay as they were; with no token, or an
    empty one, the config passes unchanged. *)
Theorem request_carries_token (c : RequestConfig) (b : Browser) :
  (forall t, token (auth b) = Some t -> t <> "" ->
     Obj.get "Authorization" (cfg_headers (on_request c b)) = Some ("Bearer " ++ t) /\
     cfg_method (on_request c b) = cfg_method c /\
     cfg_url (on_request c b) = cfg_url c /\
     cfg_data (on_request c b) = cfg_data c /\
     (forall k, k <> "Authorization" ->
        Obj.get k (cfg_headers (on_request c b)) = Obj.get k (cfg_headers c))) /\
  (truthy (token (auth b)) = false -> on_request c b = c).
Proof.
  unfold on_request, truthy. split.
  - intros t Ht Hne. rewrite Ht.
    destruct t as [|a t]; [congruence|]. cbn.
    repeat split.
    + apply get_set_same.
    + intros k Hk. apply get_set_other. exact Hk.
  - destruct (token (auth b)) as [t|]; [|reflexivity].
    destruct (Str.is_empty t); [reflexivity|discriminate].
Qed.

(** X2. A 2xx answer resolves to its data, and neither the auth store nor
    the location is touched. *)
Theorem success_resolves_data (r : AxiosResponse) (b : Browser)
  (Hok : (200 <= Frontend.status r < 300)%Z) :
  receive r b = (Resolved (data r), b).
Proof.
  unfold receive, settle.
  replace ((200 <=? Frontend.status r)%Z && (Frontend.status r <? 300)%Z) with true.
  - reflexivity.
  - symmetry. apply andb_true_iff. split; [apply Z.leb_le|apply Z.ltb_lt]; lia.
Qed.

(** X3. An error other than a 401, one without any response included,
    is rejected to the caller with the auth store and the location left as
    they were. *)
Theorem other_errors_keep_session (b : Browser) :
  (forall e, status_is_401 e = false -> on_rejected e b = (Rejected e, b)) /\
  (forall e, response e = None -> on_rejected e b = (Rejected e, b)) /\
  (forall r, (Frontend.status r < 200 \/ 300 <= Frontend.status r)%Z ->
     Frontend.status r <> 401%Z ->
     receive r b = (Rejected {| response := Some r |}, b)).
Proof.
  assert (H : forall e, status_is_401 e = false -> on_rejected e b = (Rejected e, b)).
  { intros e He. unfold on_rejected. rewrite He. reflexivity. }
  split; [exact H|]. split.
  - intros e He. apply H. unfold status_is_401. rewrite He. reflexivity.
  - intros r Hr Hn. unfold receive, settle.
    replace ((200 <=? Frontend.status r)%Z && (Frontend.status r <? 300)%Z) with false.
    + cbn [intercept]. apply H. unfold status_is_401. cbn.
      apply Z.eqb_neq. exact Hn.
    + symmetry. apply andb_false_iff.
      destruct Hr; [left; apply Z.leb_gt|right; apply Z.ltb_ge]; lia.
Qed.

(** X4. After a 401 the next request leaves the interceptor without an
    Authorization header of the client's making (the config passes
    unchanged), and every route under the root navigates to /login. *)
Theorem after_401_session_is_gone
  (r : AxiosResponse) (b : Browser) (c : RequestConfig) (child : App.Child)
  (H401 : Frontend.status r = 401%Z) :
  on_request c (snd (receive r b)) = c /\
  App.element (token (auth (snd (receive r b)))) (App.Root child) =
    App.Navigate "/login".
Proof.
  unfold receive, settle. rewrite H401. cbn. unfold on_rejected, status_is_401.
  cbn. rewrite H401. cbn. split; reflexivity.
Qed.

(** X5. The route guard and the request interceptor agree: the root route
    and its children are rendered in the main layout exactly when a request
    leaves the client with an Authorization header, and navigate to /login
    exactly when it leaves without one; the login and register pages are
    rendered either way. *)
Theorem root_route_guard
  (b : Browser) (c : RequestConfig) (child : App.Child)
  (Hplain : Obj.get "Authorization" (cfg_headers c) = None) :
  (App.element (token (auth b)) (App.Root child) = App.InLayout (App.page_of child) <->
   exists v, Obj.get "Authorization" (cfg_headers (on_request c b)) = Some v) /\
  (App.element (token (auth b)) (App.Root child) = App.Navigate "/login" <->
   Obj.get "Authorization" (cfg_headers (on_request c b)) = None) /\
  App.element (token (auth b)) App.LoginRoute = App.Show App.Login /\
  App.element (token (auth b)) App.RegisterRoute = App.Show App.Register.
Proof.
  unfold on_request. cbn [App.element]. unfold truthy.
  destruct (token (auth b)) as [t|].
  - destruct (Str.is_empty t) eqn:E; cbn [negb].
    + rewrite Hplain. repeat split; try discriminate; try reflexivity.
      intros [v Hv]. discriminate.
    + cbn [cfg_headers]. rewrite get_set_same.
      repeat split; try discriminate; try reflexivity.
      intros _. eexists. reflexivity.
  - rewrite Hplain. repeat split; try discriminate; try reflexivity.
    intros [v Hv]. discriminate.
Qed.

End ClientProperties.

(** ** The chat page *)

Section ChatProperties.
Import Frontend ChatPage.

Variable blank : string -> bool.

Lemma begin_send_some (st st1 : State) (rq : RequestConfig) :
  begin_send blank st = Some (st1, rq) ->
  blank (inputMessage st) = false /\
  exists conv,
    currentConversation st = Some conv /\
    rq = send_request conv (inputMessage st) /\
    messages st1 = (messages st ++ [mkMsg "user" (Some (JStr (inputMessage st)))])%list /\
    inputMessage st1 = "" /\
    loading st1 = true /\
    currentConversation st1 = currentConversation st /\
    notices st1 = notices st.
Proof.
  unfold begin_send.
  destruct (blank (inputMessage st)); [discriminate|].
  destruct (currentConversation st) as [conv|] eqn:C; [|discriminate].
  intros H. injection H as <- <-. split; [reflexivity|].
  exists conv. cbn. repeat split.
Qed.

(** X6. When the client rejects the message, the list on screen is again
    what it was before the send: the user's message, appended first, is
    removed; loading is reset, the input stays cleared, and one notice is
    shown, the server's detail when there is one. *)
Theorem send_failure_rolls_back
  (client : RequestConfig -> Promise JSON) (st st1 : State)
  (rq : RequestConfig) (e : AxiosError)
  (Hbegin : begin_send blank st = Some (st1, rq))
  (Hrej : client rq = Rejected e) :
  exists st',
    handleSendMessage blank client st = Some st' /\
    messages st' = messages st /\
    loading st' = false /\
    inputMessage st' = "" /\
    currentConversation st' = currentConversation st /\
    notices st' = (notices st ++ [notice_of e])%list.
Proof.
  destruct (begin_send_some _ _ _ Hbegin)
    as (_ & conv & _ & _ & Hm & Hi & _ & Hc & Hn).
  unfold handleSendMessage. rewrite Hbegin. cbn [finish_send]. rewrite Hrej.
  eexists. split; [reflexivity|]. cbn.
  rewrite Hm, Hi, Hc, Hn, removelast_last. repeat split.
Qed.

(** X7. When the client resolves with an answer that is not null, the list
    grows by exactly the user's message and then the assistant's, whose
    content is the answer's content member; the request went to the
    messages path of the current conversation with the typed text.  With a
    blank input or no conversation nothing is sent and nothing changes. *)
Theorem send_success_appends
  (client : RequestConfig -> Promise JSON) (st : State) :
  (forall st1 rq d,
     begin_send blank st = Some (st1, rq) ->
     client rq = Resolved d -> d <> JNull ->
     exists st' conv,
       handleSendMessage blank client st = Some st' /\
       currentConversation st = Some conv /\
       cfg_url rq = "/chat-v2/conversations/" ++ id conv ++ "/messages" /\
       cfg_data rq = JObj [("message", JStr (inputMessage st)); ("stream", JBool false)] /\
       messages st' =
         (messages st ++ [mkMsg "user" (Some (JStr (inputMessage st)));
                         mkMsg "assistant" (member "content" d)])%list /\
       loading st' = false /\
       notices st' = notices st) /\
  (blank (inputMessage st) = true \/ currentConversation st = None ->
   begin_send blank st = None /\ handleSendMessage blank client st = Some st).
Proof.
  split.
  - intros st1 rq d Hbegin Hres Hd.
    destruct (begin_send_some _ _ _ Hbegin)
      as (_ & conv & Hconv & Hrq & Hm & _ & _ & _ & Hn).
    unfold handleSendMessage. rewrite Hbegin. unfold finish_send. rewrite Hres.
    exists (on_finally
              {| messages := (messages st1 ++ [mkMsg "assistant" (member "content" d)])%list;
                 inputMessage := inputMessage st1;
                 loading := loading st1;
                 currentConversation := currentConversation st1;
                 notices := notices st1 |}), conv.
    split; [destruct d; congruence|].
    split; [exact Hconv|]. subst rq. cbn.
    rewrite Hm, Hn, <- app_assoc. repeat split.
  - intros H. unfold handleSendMessage, begin_send.
    destruct H as [H|H]; rewrite H.
    + split; reflexivity.
    + destruct (blank (inputMessage st)); split; reflexivity.
Qed.

(** X8. A 401 while a message is being sent: the user's message is removed
    from the list again, and the session is gone, the token cleared and the
    location set to /login. *)
Theorem send_unauthorized
  (server : RequestConfig -> AxiosResponse) (b : Browser) (st st1 : State)
  (rq : RequestConfig)
  (Hbegin : begin_send blank st = Some (st1, rq))
  (H401 : Frontend.status (server (on_request rq b)) = 401%Z) :
  exists st',
    handleSendMessage blank (fun c => fst (receive (server (on_request c b)) b)) st =
      Some st' /\
    messages st' = messages st /\
    loading st' = false /\
    token (auth (snd (receive (server (on_request rq b)) b))) = None /\
    href (snd (receive (server (on_request rq b)) b)) = "/login".
Proof.
  destruct (begin_send_some _ _ _ Hbegin) as (_ & conv & _ & _ & Hm & _).
  assert (Hrec : receive (server (on_request rq b)) b =
                 (Rejected {| response := Some (server (on_request rq b)) |},
                  {| auth := logout (auth b); href := "/login" |})).
  { unfold receive, settle. rewrite H401. cbn.
    unfold on_rejected, status_is_401. cbn. rewrite H401. reflexivity. }
  unfold handleSendMessage. rewrite Hbegin. cbn beta. rewrite Hrec.
  eexists. split; [reflexivity|]. cbn.
  rewrite Hm, removelast_last. repeat split.
Qed.

End ChatProperties.

(** ** The LLM configuration page *)

Section ConfigPageProperties.
Import LLMConfigPage.

(** X9. Choosing a provider that the list holds sets the form's api_base to
    that provider's default base URL and its model_name to the provider's
    first model, or to the empty string when it lists none, and leaves every
    other field alone; a provider the list does not hold changes nothing. *)
Theorem provider_change_sets_defaults
  (providers : list LLMProvider) (v : string) (form : list (string * JSON)) :
  (forall p, find_provider providers v = Some p ->
     value p = v /\
     Obj.get "api_base" (handleProviderChange providers v form) =
       Some (JStr (default_base p)) /\
     Obj.get "model_name" (handleProviderChange providers v form) =
       Some (JStr (hd "" (models p))) /\
     (forall k, k <> "api_base" -> k <> "model_name" ->
        Obj.get k (handleProviderChange providers v form) = Obj.get k form)) /\
  (find_provider providers v = None ->
     handleProviderChange providers v form = form).
Proof.
  unfold handleProviderChange. split.
  - intros p Hp. rewrite Hp. repeat split.
    + unfold find_provider in Hp. apply find_some in Hp.
      apply String.eqb_eq. exact (proj2 Hp).
    + rewrite get_set_other by discriminate. apply get_set_same.
    + apply get_set_same.
    + intros k H1 H2. rewrite !get_set_other by assumption. reflexivity.
  - intros H. rewrite H. reflexivity.
Qed.

(** X10. The label shown for a provider value is the label of the first
    provider of the list with that value, when it has a non-empty one, and
    the value itself otherwise, that is, when no provider has that value or
    the first that has it has an empty label; so a non-empty value never
    shows as an empty label. *)
Theorem provider_label_falls_back (providers : list LLMProvider) (v : string) :
  (forall p, find_provider providers v = Some p -> label p <> "" ->
     getProviderLabel providers v = label p) /\
  (forall p, find_provider providers v = Some p -> label p = "" ->
     getProviderLabel providers v = v) /\
  (find_provider providers v = None -> getProviderLabel providers v = v) /\
  (v <> "" -> getProviderLabel providers v <> "").
Proof.
  unfold getProviderLabel. repeat split.
  - intros p Hp Hl. rewrite Hp. destruct (label p); [congruence|reflexivity].
  - intros p Hp Hl. rewrite Hp, Hl. reflexivity.
  - intros H. rewrite H. reflexivity.
  - intros Hv. destruct (find_provider providers v) as [p|]; [|exact Hv].
    destruct (label p); [exact Hv|discriminate].
Qed.

End ConfigPageProperties.

(** ** The sketch on its own *)

(** X11. Whatever the base URL, the sketch targets a path ending in
    /chat/completions exactly when it builds the OpenAI-compatible body, and
    the native generation path exactly when it builds the native one; the
    native branch is taken only for a base URL that is set and lacks the
    marker. *)
Theorem sketch_shape_matches_path (base : option string) :
  (snd (sketch_target base) = OpenAIShape <->
   Str.ends_with "/chat/completions" (fst (sketch_target base)) = true) /\
  (snd (sketch_target base) = NativeShape <->
   exists b, base = Some b /\ b <> "" /\ Str.contains marker b = false /\
             fst (sketch_target base) =
               b ++ "/api/v1/services/aigc/text-generation/generation").
Proof.
  unfold sketch_target.
  destruct base as [b|].
  2:{ cbn [fst snd]. split; split; try reflexivity; try discriminate.
      intros (b & H & _). discriminate. }
  destruct (Str.is_empty b) eqn:E.
  { cbn [fst snd]. split; split; try reflexivity; try discriminate.
    intros (b' & H & Hne & _). injection H as ->.
    destruct b'; [congruence|discriminate]. }
  destruct (Str.contains marker b) eqn:M; cbn [fst snd].
  - split; split; try discriminate.
    + intros _. apply compat_url_chat.
    + reflexivity.
    + intros (b' & H & _ & M' & _). injection H as ->. congruence.
  - split; split; try reflexivity.
    + discriminate.
    + rewrite native_url_not_chat. discriminate.
    + intros _. exists b. repeat split; try assumption.
      intros ->. discriminate.
Qed.

(** *** The frontend theorems at concrete states *)

Lemma success_resolves_data_witness :
  Frontend.receive fine logged_in = (Frontend.Resolved (Frontend.data fine), logged_in).
Proof.
  apply (success_resolves_data fine logged_in). cbn. lia.
Defined.

Lemma after_401_session_is_gone_witness :
  Frontend.on_request a_request (snd (Frontend.receive unauthorized logged_in)) =
    a_request /\
  App.element
    (Frontend.token (Frontend.auth (snd (Frontend.receive unauthorized logged_in))))
    (App.Root App.ChatPath) = App.Navigate "/login".
Proof.
  exact (after_401_session_is_gone unauthorized logged_in a_request App.ChatPath eq_refl).
Defined.

Lemma send_failure_rolls_back_witness :
  exists st',
    ChatPage.handleSendMessage only_spaces unreachable typing = Some st' /\
    ChatPage.messages st' = ChatPage.messages typing /\
    ChatPage.loading st' = false.
Proof.
  destruct (send_failure_rolls_back only_spaces unreachable typing _ _
              {| Frontend.response := None |} eq_refl eq_refl)
    as (st' & Hs & Hm & Hl & _).
  exists st'. split; [exact Hs|]. split; [exact Hm|exact Hl].
Defined.

Lemma send_unauthorized_witness :
  exists st',
    ChatPage.handleSendMessage only_spaces
      (fun c => fst (Frontend.receive unauthorized logged_in)) typing = Some st' /\
    ChatPage.messages st' = ChatPage.messages typing /\
    Frontend.href (snd (Frontend.receive unauthorized logged_in)) = "/login".
Proof.
  destruct (send_unauthorized only_spaces (fun _ => unauthorized) logged_in typing _ _
              eq_refl eq_refl)
    as (st' & Hs & Hm & _ & _ & Hh).
  exists st'. split; [exact Hs|]. split; [exact Hm|exact Hh].
Defined.

Lemma root_route_guard_witness :
  Obj.get "Authorization" (Frontend.cfg_headers a_request) = None /\
  App.element (Frontend.token (Frontend.auth logged_in)) (App.Root App.ChatPath) =
    App.InLayout App.Chat /\
  Obj.get "Authorization" (Frontend.cfg_headers (Frontend.on_request a_request logged_in)) =
    Some "Bearer jwt".
Proof.
  split; [reflexivity|].
  destruct (root_route_guard logged_in a_request App.ChatPath eq_refl) as (_ & _ & _ & _).
  split; reflexivity.
Defined.

(** ** The dialog of the configuration page *)

Section DialogProperties.
Import LLMConfigPage.

Variable reset : list (string * JSON) -> list (string * JSON).

Lemma save_request_same (st st' : Page) (values : list (string * JSON)) :
  editingConfig st' = editingConfig st ->
  save_request st' values = save_request st values.
Proof. unfold save_request. intros ->. reflexivity. Qed.

Lemma rejected_saves_keep (evs : list Event) :
  forall st0 st,
    editingConfig st = editingConfig st0 ->
    all_rejected st0 evs ->
    modalVisible (fst (run_events reset evs st)) = modalVisible st /\
    editingConfig (fst (run_events reset evs st)) = editingConfig st /\
    form (fst (run_events reset evs st)) = form st /\
    configs (fst (run_events reset evs st)) = configs st /\
    length (notices (fst (run_events reset evs st))) =
      (length (notices st) + length evs)%nat /\
    length (snd (run_events reset evs st)) = length evs /\
    Forall (fun rq => exists values, rq = save_request st0 values)
           (snd (run_events reset evs st)).
Proof.
  induction evs as [|ev evs IH]; intros st0 st Hed Hall.
  - cbn. repeat split; auto.
  - inversion Hall as [|? ? (values & client & e & -> & Hrej) Hrest]; subst.
    cbn [run_events step]. unfold handleCreate.
    rewrite (save_request_same st0 st values Hed), Hrej.
    set (st1 := {| configs := configs st; loading := loading st;
                   modalVisible := modalVisible st; editingConfig := editingConfig st;
                   form := form st;
                   notices := (notices st ++ [Ui.Error (Ui.detail_or "操作失败" e)])%list |}).
    destruct (IH st0 st1 Hed Hrest) as (Hv & He & Hf & Hc & Hn & Hl & Hq).
    destruct (run_events reset evs st1) as [st2 l2]. cbn [fst snd] in *.
    repeat split; try assumption.
    + rewrite Hn. subst st1. cbn. rewrite length_app. cbn. lia.
    + cbn. rewrite Hl. reflexivity.
    + cbn. constructor; [exists values; reflexivity|assumption].
Qed.

(** X12. However many saves of an edited configuration are rejected in a
    row, the dialog stays open on the same configuration with the form as
    it was loaded, each attempt went as a PUT to that configuration's path
    and shows one notice, and the save that finally succeeds is again a PUT
    to that path, after which the dialog is closed with no edit target. *)
Theorem failed_saves_keep_target
  (r : LLMConfig) (st : Page) (evs : list Event)
  (Hrej : all_rejected (handleEdit r st) evs) :
  modalVisible (fst (run_events reset evs (handleEdit r st))) = true /\
  editingConfig (fst (run_events reset evs (handleEdit r st))) = Some r /\
  form (fst (run_events reset evs (handleEdit r st))) = form (handleEdit r st) /\
  length (notices (fst (run_events reset evs (handleEdit r st)))) =
    (length (notices st) + length evs)%nat /\
  length (snd (run_events reset evs (handleEdit r st))) = length evs /\
  Forall (fun rq => Frontend.cfg_method rq = "put" /\
                    Frontend.cfg_url rq = "/llm-configs/" ++ id r)
         (snd (run_events reset evs (handleEdit r st))) /\
  (forall values client d,
     client (Ui.call "put" ("/llm-configs/" ++ id r) (JObj values)) =
       Frontend.Resolved d ->
     exists st' rest,
       handleCreate reset values client (fst (run_events reset evs (handleEdit r st))) =
         (st', Ui.call "put" ("/llm-configs/" ++ id r) (JObj values) :: rest) /\
       modalVisible st' = false /\
       editingConfig st' = None).
Proof.
  destruct (rejected_saves_keep evs (handleEdit r st) (handleEdit r st) eq_refl Hrej)
    as (Hv & He & Hf & _ & Hn & Hl & Hq).
  repeat split; try assumption.
  - eapply Forall_impl; [|exact Hq].
    intros rq (values & ->). split; reflexivity.
  - intros values client d Hres. unfold handleCreate, save_request.
    rewrite He. cbn [handleEdit editingConfig]. rewrite Hres.
    do 2 eexists. split; [reflexivity|].
    destruct (client list_request); split; reflexivity.
Qed.

(** The edit target is always a configuration that was opened for editing,
    and is set only while the dialog is open. *)
Lemma edit_target_invariant (evs : list Event) :
  forall (known : list LLMConfig) (st : Page),
    (forall r, editingConfig st = Some r -> In r known /\ modalVisible st = true) ->
    (forall r, editingConfig (fst (run_events reset evs st)) = Some r ->
       (In r known \/ In (Edit r) evs) /\
       modalVisible (fst (run_events reset evs st)) = true) /\
    (forall rq, In rq (snd (run_events reset evs st)) ->
       Frontend.cfg_method rq = "put" ->
       exists r, (In r known \/ In (Edit r) evs) /\
                 Frontend.cfg_url rq = "/llm-configs/" ++ id r).
Proof.
  induction evs as [|ev evs IH]; intros known st Hinv.
  - cbn. split.
    + intros r Hr. destruct (Hinv r Hr). auto.
    + intros rq [].
  - cbn [run_events].
    destruct (step reset ev st) as [st1 l1] eqn:Hstep.
    assert (Hinv1 : forall r, editingConfig st1 = Some r ->
              In r (match ev with Edit r' => r' :: known | _ => known end) /\
              modalVisible st1 = true).
    { destruct ev as [|r'| |values client|i client]; cbn in Hstep.
      - injection Hstep as <- <-. cbn. discriminate.
      - injection Hstep as <- <-. cbn. intros r Hr. injection Hr as <-. auto.
      - injection Hstep as <- <-. cbn. discriminate.
      - unfold handleCreate in Hstep.
        destruct (client (save_request st values)).
        + injection Hstep as <- <-.
          destruct (client list_request); cbn; discriminate.
        + injection Hstep as <- <-. cbn. exact Hinv.
      - unfold handleDelete in Hstep.
        destruct (client (Ui.call "delete" ("/llm-configs/" ++ i) JNull)).
        + injection Hstep as <- <-.
          destruct (client list_request); cbn; exact Hinv.
        + injection Hstep as <- <-. cbn. exact Hinv. }
    assert (Hl1 : forall rq, In rq l1 -> Frontend.cfg_method rq = "put" ->
              exists r, In r known /\ Frontend.cfg_url rq = "/llm-configs/" ++ id r).
    { destruct ev as [|r'| |values client|i client]; cbn in Hstep;
        try (injection Hstep as <- <-; intros rq []).
      - unfold handleCreate, save_request in Hstep.
        destruct (editingConfig st) as [r|] eqn:Hed.
        + destruct (Hinv r eq_refl) as [Hk _].
          destruct (client _); injection Hstep as <- <-; cbn;
            intros rq Hin Hm;
            repeat (destruct Hin as [<-|Hin]; [try (exists r; split; [exact Hk|reflexivity]);
                                              try discriminate Hm|]);
            destruct Hin.
        + destruct (client _); injection Hstep as <- <-; cbn;
            intros rq Hin Hm;
            repeat (destruct Hin as [<-|Hin]; [discriminate Hm|]); destruct Hin.
      - unfold handleDelete in Hstep.
        destruct (client _); injection Hstep as <- <-; cbn;
          intros rq Hin Hm;
          repeat (destruct Hin as [<-|Hin]; [discriminate Hm|]); destruct Hin. }
    destruct (IH _ st1 Hinv1) as [Hed2 Hlog2].
    destruct (run_events reset evs st1) as [st2 l2]. cbn [fst snd] in *.
    assert (Hknown : forall r,
              In r (match ev with Edit r' => r' :: known | _ => known end) \/
              In (Edit r) evs ->
              In r known \/ In (Edit r) (ev :: evs)).
    { intros r [H|H]; [|right; right; exact H].
      destruct ev; try (left; exact H).
      destruct H as [<-|H]; [right; left; reflexivity|left; exact H]. }
    split.
    + intros r Hr. destruct (Hed2 r Hr) as [H1 H2]. split; [apply Hknown; exact H1|exact H2].
    + intros rq Hin Hm. apply in_app_or in Hin. destruct Hin as [Hin|Hin].
      * destruct (Hl1 rq Hin Hm) as (r & Hk & Hu). exists r. split; [left; exact Hk|exact Hu].
      * destruct (Hlog2 rq Hin Hm) as (r & Hk & Hu). exists r.
        split; [apply Hknown; exact Hk|exact Hu].
Qed.

(** X13. Whatever the user does on the page, starting from its first
    rendering, every PUT the page sends goes to the path of a configuration
    the user opened for editing, and the page holds an edit target only
    while the dialog is open. *)
Theorem put_only_to_edited (evs : list Event) :
  (forall rq, In rq (snd (run_events reset evs initial)) ->
     Frontend.cfg_method rq = "put" ->
     exists r, In (Edit r) evs /\ Frontend.cfg_url rq = "/llm-configs/" ++ id r) /\
  (forall r, editingConfig (fst (run_events reset evs initial)) = Some r ->
     In (Edit r) evs /\ modalVisible (fst (run_events reset evs initial)) = true).
Proof.
  destruct (edit_target_invariant evs [] initial) as [Hed Hlog].
  { cbn. discriminate. }
  split.
  - intros rq Hin Hm. destruct (Hlog rq Hin Hm) as (r & [[]|Hk] & Hu).
    exists r. auto.
  - intros r Hr. destruct (Hed r Hr) as [[[]|Hk] Hv]. auto.
Qed.

(** X14. Opening a configuration for editing loads its name, provider,
    model, base URL, temperature, max tokens and default flag into the
    form, and leaves every other field of the form, the api_key field among
    them, as it was: the page never fills in a key. *)
Theorem edit_loads_record_not_key (r : LLMConfig) (st : Page) :
  Obj.get "name" (form (handleEdit r st)) = Some (JStr (name r)) /\
  Obj.get "provider" (form (handleEdit r st)) = Some (JStr (provider r)) /\
  Obj.get "model_name" (form (handleEdit r st)) = Some (JStr (model_name r)) /\
  Obj.get "api_base" (form (handleEdit r st)) = Some (base_value (api_base r)) /\
  Obj.get "temperature" (form (handleEdit r st)) = Some (JFloat (temperature r)) /\
  Obj.get "max_tokens" (form (handleEdit r st)) = Some (JInt (max_tokens r)) /\
  Obj.get "is_default" (form (handleEdit r st)) = Some (JBool (is_default r)) /\
  Obj.get "api_key" (form (handleEdit r st)) = Obj.get "api_key" (form st) /\
  (forall k,
     ~ In k ["name"; "provider"; "model_name"; "api_base"; "temperature";
             "max_tokens"; "is_default"] ->
     Obj.get k (form (handleEdit r st)) = Obj.get k (form st)).
Proof.
  cbn [handleEdit form].
  repeat split;
    try (repeat (rewrite get_set_other by discriminate); try apply get_set_same;
         reflexivity).
  intros k Hk.
  repeat (rewrite get_set_other; [|intros ->; apply Hk; cbn; tauto]).
  reflexivity.
Qed.

End DialogProperties.

(** ** Creating a data source *)

Section DataSourceProperties.
Import DataSourcePage.

Variable parse : string -> option JSON.
Variable reset : list (string * JSON) -> list (string * JSON).

Lemma optional_field_bad (s : string) :
  s <> "" -> parse s = None -> optional_field parse (Some (JStr s)) = None.
Proof.
  intros Hs Hp. cbn. destruct s; [congruence|]. cbn. exact Hp.
Qed.

Lemma optional_field_empty (v : option JSON) :
  v = None \/ (exists x, v = Some x /\ ChatPage.js_truthy x = false) ->
  optional_field parse v = Some JNull.
Proof.
  intros [->|(x & -> & Hx)]; cbn; [reflexivity|]. rewrite Hx. reflexivity.
Qed.

(** X15. When the config field is a text that JSON.parse rejects, or the
    schema_info or examples field is a non-empty text that it rejects,
    creating a data source sends no request at all: the dialog stays open,
    the form and the list are untouched, and the one notice shown is the
    fallback text. *)
Theorem bad_json_sends_nothing
  (values : list (string * JSON))
  (client : Frontend.RequestConfig -> Frontend.Promise JSON)
  (st : Page) (f s : string)
  (Hfield : f = "config" \/ ((f = "schema_info" \/ f = "examples") /\ s <> ""))
  (Hget : Obj.get f values = Some (JStr s))
  (Hbad : parse s = None) :
  snd (handleCreate parse reset values client st) = [] /\
  modalVisible (fst (handleCreate parse reset values client st)) = modalVisible st /\
  form (fst (handleCreate parse reset values client st)) = form st /\
  datasources (fst (handleCreate parse reset values client st)) = datasources st /\
  notices (fst (handleCreate parse reset values client st)) =
    (notices st ++ [Ui.Error (JStr "创建失败")])%list.
Proof.
  assert (Hnone : build_data parse values = None).
  { unfold build_data.
    destruct Hfield as [->|[[->| ->] Hs]].
    - rewrite Hget. cbn [decode_field]. rewrite Hbad. reflexivity.
    - rewrite Hget, (optional_field_bad s Hs Hbad).
      destruct (match Obj.get "config" values with
                | Some v => _ | None => _ end); reflexivity.
    - rewrite Hget, (optional_field_bad s Hs Hbad).
      destruct (match Obj.get "config" values with
                | Some v => _ | None => _ end);
        destruct (optional_field parse (Obj.get "schema_info" values)); reflexivity. }
  unfold handleCreate. rewrite Hnone. cbn. repeat split.
Qed.

(** X16. What goes on the wire when a data source is created: every field
    other than config, schema_info and examples as the form gave it;
    schema_info and examples always present, null when the form left them
    out or empty; config parsed when it is a text, kept when it is not, and
    absent when the form had none; and the first request is the POST of
    exactly that object to /datasources. *)
Theorem created_data_shape
  (values d : list (string * JSON))
  (Hbuilt : build_data parse values = Some d) :
  (forall k, k <> "config" -> k <> "schema_info" -> k <> "examples" ->
     Obj.get k d = Obj.get k values) /\
  (exists v, Obj.get "schema_info" d = Some v) /\
  (exists v, Obj.get "examples" d = Some v) /\
  (Obj.get "schema_info" values = None \/
   (exists x, Obj.get "schema_info" values = Some x /\ ChatPage.js_truthy x = false) ->
   Obj.get "schema_info" d = Some JNull) /\
  (Obj.get "examples" values = None \/
   (exists x, Obj.get "examples" values = Some x /\ ChatPage.js_truthy x = false) ->
   Obj.get "examples" d = Some JNull) /\
  (Obj.get "config" values = None -> Obj.get "config" d = None) /\
  (forall s, Obj.get "config" values = Some (JStr s) -> Obj.get "config" d = parse s) /\
  (forall client st,
     exists rest,
       snd (handleCreate parse reset values client st) =
         Ui.call "post" "/datasources" (JObj d) :: rest).
Proof.
  pose proof Hbuilt as Hb. unfold build_data in Hb.
  destruct (match Obj.get "config" values with
            | Some v => match decode_field parse v with
                        | Some c => Some (Obj.set "config" c values)
                        | None => None
                        end
            | None => Some values
            end) as [d0|] eqn:Hc; [|discriminate].
  destruct (optional_field parse (Obj.get "schema_info" values)) as [sv|] eqn:Hs;
    [|discriminate].
  destruct (optional_field parse (Obj.get "examples" values)) as [ev|] eqn:He;
    [|discriminate].
  injection Hb as <-.
  assert (Hd0 : forall k, k <> "config" -> Obj.get k d0 = Obj.get k values).
  { intros k Hk. destruct (Obj.get "config" values) as [v|].
    - destruct (decode_field parse v); [|discriminate].
      injection Hc as <-. apply get_set_other. exact Hk.
    - injection Hc as <-. reflexivity. }
  repeat split.
  - intros k H1 H2 H3. rewrite !get_set_other by assumption. apply Hd0. exact H1.
  - exists sv. rewrite get_set_other by discriminate. apply get_set_same.
  - exists ev. apply get_set_same.
  - intros H. rewrite get_set_other by discriminate. rewrite get_set_same.
    rewrite (optional_field_empty _ H) in Hs. exact (eq_sym Hs).
  - intros H. rewrite get_set_same.
    rewrite (optional_field_empty _ H) in He. exact (eq_sym He).
  - intros H. rewrite !get_set_other by discriminate.
    rewrite H in Hc. injection Hc as <-. exact H.
  - intros s H. rewrite !get_set_other by discriminate.
    rewrite H in Hc. cbn [decode_field] in Hc.
    destruct (parse s) as [c|]; [|discriminate].
    injection Hc as <-. apply get_set_same.
  - intros client st. unfold handleCreate. rewrite Hbuilt.
    destruct (client (Ui.call "post" "/datasources" (JObj _)));
      eexists; reflexivity.
Qed.

End DataSourceProperties.

(** ** Creating an interface *)

Section InterfaceProperties.
Import InterfacePage.

Variable parse : string -> option JSON.
Variable to_text : JSON -> string.
Variable reset : list (string * JSON) -> list (string * JSON).

(** A field the handler does not parse: absent, or present and falsy. *)
Lemma parse_field_skipped (k : string) (values : list (string * JSON)) :
  Obj.get k values = None \/
  (exists x, Obj.get k values = Some x /\ ChatPage.js_truthy x = false) ->
  parse_field parse to_text k values = Some values.
Proof.
  unfold parse_field. intros [->|(x & -> & ->)]; reflexivity.
Qed.

(** X21. Creating an interface parses its config and parameters only when
    they are filled in: with both left out or empty, the form values are
    posted to /interfaces exactly as they are, an empty text included; and
    when config is a non-empty text that JSON.parse rejects, or config
    parses and parameters is such a text, nothing is sent and the dialog,
    the form and the list stay as they were under the fallback notice. *)
Theorem interface_texts_are_optional
  (values : list (string * JSON))
  (client : Frontend.RequestConfig -> Frontend.Promise JSON) (st : Page) :
  ((Obj.get "config" values = None \/
    (exists x, Obj.get "config" values = Some x /\ ChatPage.js_truthy x = false)) ->
   (Obj.get "parameters" values = None \/
    (exists x, Obj.get "parameters" values = Some x /\ ChatPage.js_truthy x = false)) ->
   exists rest,
     snd (handleCreate parse to_text reset values client st) =
       Ui.call "post" "/interfaces" (JObj values) :: rest) /\
  (forall k s,
     (k = "config" \/
      (k = "parameters" /\ parse_field parse to_text "config" values <> None)) ->
     Obj.get k values = Some (JStr s) -> s <> "" -> parse s = None ->
     handleCreate parse to_text reset values client st =
       ({| interfaces := interfaces st; loading := loading st;
           modalVisible := modalVisible st; form := form st;
           notices := (notices st ++ [Ui.Error (JStr "创建失败")])%list |}, [])).
Proof.
  split.
  - intros Hc Hp. unfold handleCreate, build_data.
    rewrite (parse_field_skipped "config" values Hc).
    rewrite (parse_field_skipped "parameters" values Hp).
    destruct (client (Ui.call "post" "/interfaces" (JObj values)));
      eexists; reflexivity.
  - intros k s Hk Hget Hs Hbad.
    assert (Hnone : build_data parse to_text values = None).
    { unfold build_data.
      assert (Htruthy : ChatPage.js_truthy (JStr s) = true)
        by (destruct s; [congruence|reflexivity]).
      destruct Hk as [->|[-> Hcfg]].
      - unfold parse_field. rewrite Hget, Htruthy. cbn [parse_value].
        rewrite Hbad. reflexivity.
      - destruct (parse_field parse to_text "config" values) as [v1|] eqn:E;
          [|congruence].
        assert (Hsame : Obj.get "parameters" v1 = Some (JStr s)).
        { unfold parse_field in E.
          destruct (Obj.get "config" values) as [v|]; [|injection E as <-; exact Hget].
          destruct (ChatPage.js_truthy v); [|injection E as <-; exact Hget].
          destruct (parse_value parse to_text v); [|discriminate].
          injection E as <-. rewrite get_set_other by discriminate. exact Hget. }
        unfold parse_field. rewrite Hsame, Htruthy. cbn [parse_value].
        rewrite Hbad. reflexivity. }
    unfold handleCreate. rewrite Hnone. reflexivity.
Qed.

End InterfaceProperties.

(** ** The chat controls *)

Section ChatControls.
Import Frontend ChatPage.

Variable blank : string -> bool.

(** X17. While a message is in flight the input and the send button are
    disabled.  Once the send has settled they are enabled again, whether it
    was rejected or resolved, with one exception: a send resolved with null
    leaves no page state at all, the read of the answer's content failing
    while the list is rendered. *)
Theorem controls_follow_flight
  (st st1 : State) (rq : RequestConfig)
  (Hbegin : begin_send blank st = Some (st1, rq)) :
  controls_disabled st = loading st /\
  controls_disabled st1 = true /\
  finish_send (Resolved JNull) st1 = None /\
  (forall o, o <> Resolved JNull ->
     exists st', finish_send o st1 = Some st' /\ controls_disabled st' = false).
Proof.
  destruct (begin_send_some blank _ _ _ Hbegin)
    as (_ & conv & Hconv & _ & _ & _ & Hl & Hc & _).
  unfold controls_disabled. rewrite Hc, Hconv.
  split; [reflexivity|]. split; [exact Hl|]. split; [reflexivity|].
  intros o Ho. unfold finish_send.
  destruct o as [d|e].
  - destruct d; try (destruct (Ho eq_refl)); eexists; (split; [reflexivity|]);
      cbn; rewrite Hc, Hconv; reflexivity.
  - eexists. split; [reflexivity|]. cbn. rewrite Hc, Hconv. reflexivity.
Qed.

End ChatControls.

(** ** Signing in *)

Section LoginProperties.
Import Frontend LoginPage.

Variable setToken : option JSON -> AuthState -> AuthState.
Variable setUser : JSON -> AuthState -> AuthState.

Lemma on_request_url (c : RequestConfig) (b : Browser) :
  cfg_url (on_request c b) = cfg_url c.
Proof.
  unfold on_request. destruct (token (auth b)) as [t|]; [|reflexivity].
  destruct (Str.is_empty t); reflexivity.
Qed.

Lemma receive_2xx (r : AxiosResponse) (b : Browser) :
  (200 <= Frontend.status r < 300)%Z -> receive r b = (Resolved (data r), b).
Proof.
  intros H. unfold receive, settle.
  replace ((200 <=? Frontend.status r)%Z && (Frontend.status r <? 300)%Z) with true.
  - reflexivity.
  - symmetry. apply andb_true_iff. split; [apply Z.leb_le|apply Z.ltb_lt]; lia.
Qed.

Lemma exchange_ok
  (server : RequestConfig -> option AxiosResponse) (c : RequestConfig) (b : Browser)
  (r : AxiosResponse) :
  server (on_request c b) = Some r -> (200 <= Frontend.status r < 300)%Z ->
  Ui.exchange server c b = (Resolved (data r), b).
Proof. intros Hs Hok. unfold Ui.exchange. rewrite Hs. apply receive_2xx. exact Hok. Qed.

(** A call that resolves had a 2xx answer and touched nothing; a call that
    is rejected touched nothing, or met a 401 and ended the session. *)
Lemma exchange_cases
  (server : RequestConfig -> option AxiosResponse) (c : RequestConfig) (b : Browser) :
  (exists r, server (on_request c b) = Some r /\
             (200 <= Frontend.status r < 300)%Z /\
             Ui.exchange server c b = (Resolved (data r), b)) \/
  (exists e, Ui.exchange server c b = (Rejected e, b) /\ status_is_401 e = false) \/
  (exists e, Ui.exchange server c b =
               (Rejected e, {| auth := logout (auth b); href := "/login" |})).
Proof.
  unfold Ui.exchange.
  destruct (server (on_request c b)) as [r|].
  - unfold receive, settle.
    destruct ((200 <=? Frontend.status r)%Z && (Frontend.status r <? 300)%Z) eqn:E.
    + left. exists r. apply andb_true_iff in E. destruct E as [E1 E2].
      apply Z.leb_le in E1. apply Z.ltb_lt in E2. repeat split; auto; lia.
    + right. cbn [intercept]. unfold on_rejected.
      destruct (status_is_401 {| response := Some r |}) eqn:S.
      * right. eexists. reflexivity.
      * left. eexists. split; [reflexivity|exact S].
  - right. left. eexists. split; reflexivity.
Qed.

(** X18. When the login call and the profile call both get a 2xx answer,
    the first holding a non-empty string access_token, the page ends at /
    with that token stored and the success notice shown, and the profile
    call left the client with that very token as its bearer: the token is
    stored before /auth/me is asked. *)
Theorem login_success
  (values : JSON) (server : RequestConfig -> option AxiosResponse) (st : State)
  (t : string) (r1 r2 : AxiosResponse)
  (Hstore : forall a, token (setToken (Some (JStr t)) a) = Some t)
  (Hkeep : forall u a, token (setUser u a) = token a)
  (Hne : t <> "")
  (Hlogin : server (on_request (login_request values) (browser st)) = Some r1)
  (Hok1 : (200 <= Frontend.status r1 < 300)%Z)
  (Htoken : member "access_token" (data r1) = Some (JStr t))
  (Hme : forall c, cfg_url c = "/auth/me" -> server c = Some r2)
  (Hok2 : (200 <= Frontend.status r2 < 300)%Z) :
  exists sent1 sent2,
    snd (onFinish setToken setUser values server st) = [sent1; sent2] /\
    cfg_url sent1 = "/auth/login" /\
    cfg_url sent2 = "/auth/me" /\
    Obj.get "Authorization" (cfg_headers sent2) = Some ("Bearer " ++ t) /\
    token (auth (browser (fst (onFinish setToken setUser values server st)))) = Some t /\
    href (browser (fst (onFinish setToken setUser values server st))) = "/" /\
    loading (fst (onFinish setToken setUser values server st)) = false /\
    notices (fst (onFinish setToken setUser values server st)) =
      (notices st ++ [Ui.Success "登录成功"])%list.
Proof.
  unfold onFinish.
  rewrite (exchange_ok server _ _ r1 Hlogin Hok1).
  destruct (data r1) as [| | | | | |ms] eqn:Ed; try discriminate Htoken.
  cbv zeta.
  match goal with
  | |- context [Ui.exchange server me_request ?b] => set (b2 := b)
  end.
  assert (Htok2 : token (auth b2) = Some t)
    by (subst b2; cbn [auth]; rewrite Htoken; apply Hstore).
  rewrite (exchange_ok server me_request b2 r2);
    [|apply Hme; rewrite on_request_url; reflexivity|exact Hok2].
  cbn [fst snd browser auth href loading notices].
  do 2 eexists. split; [reflexivity|].
  rewrite !on_request_url. repeat split.
  - unfold on_request. rewrite Htok2.
    destruct t as [|a t]; [congruence|]. cbn. reflexivity.
  - rewrite Hkeep. exact Htok2.
Qed.

(** X19. Signing in always ends with loading reset and exactly one more
    notice, after one or two requests; and it arrives at / only when both
    the login call and the profile call were answered with a 2xx, in which
    case the notice is the success notice: no failure of either call, a
    null answer included, ever navigates there. *)
Theorem login_navigates_only_on_success
  (values : JSON) (server : RequestConfig -> option AxiosResponse) (st : State) :
  loading (fst (onFinish setToken setUser values server st)) = false /\
  length (notices (fst (onFinish setToken setUser values server st))) =
    S (length (notices st)) /\
  (1 <= length (snd (onFinish setToken setUser values server st)) <= 2)%nat /\
  (href (browser st) <> "/" ->
   href (browser (fst (onFinish setToken setUser values server st))) = "/" ->
   notices (fst (onFinish setToken setUser values server st)) =
     (notices st ++ [Ui.Success "登录成功"])%list /\
   exists r1 r2,
     server (on_request (login_request values) (browser st)) = Some r1 /\
     (200 <= Frontend.status r1 < 300)%Z /\
     data r1 <> JNull /\
     server (on_request me_request
               {| auth := setToken (member "access_token" (data r1)) (auth (browser st));
                  href := href (browser st) |}) = Some r2 /\
     (200 <= Frontend.status r2 < 300)%Z).
Proof.
  unfold onFinish.
  destruct (exchange_cases server (login_request values) (browser st))
    as [(r1 & Hs1 & Hok1 & ->)|[(e & -> & _)|(e & ->)]].
  - destruct (data r1) eqn:Ed;
      try (cbv zeta;
           match goal with
           | |- context [Ui.exchange server me_request ?b] =>
               destruct (exchange_cases server me_request b)
                 as [(r2 & Hs2 & Hok2 & ->)|[(e2 & -> & _)|(e2 & ->)]]
           end;
           cbn; rewrite ?length_app; cbn;
           repeat split; try lia; try congruence;
           exists r1, r2; rewrite Ed;
           repeat split; try assumption; try lia; congruence).
    cbn. rewrite length_app. cbn. repeat split; try lia; congruence.
  - cbn. rewrite length_app. cbn. repeat split; try lia; congruence.
  - cbn. rewrite length_app. cbn. repeat split; try lia; congruence.
Qed.

(** X20. When the login call succeeds with a string access_token and the
    profile call then fails without a 401 (no answer, or another status),
    the page stays where it was and shows an error notice, but the token
    remains stored: if it is not empty, the root route now renders the
    main layout although signing in was reported as failed. *)
Theorem login_profile_failure_keeps_token
  (values : JSON) (server : RequestConfig -> option AxiosResponse) (st : State)
  (t : string) (r1 : AxiosResponse) (o2 : option AxiosResponse)
  (Hstore : forall a, token (setToken (Some (JStr t)) a) = Some t)
  (Hlogin : server (on_request (login_request values) (browser st)) = Some r1)
  (Hok1 : (200 <= Frontend.status r1 < 300)%Z)
  (Htoken : member "access_token" (data r1) = Some (JStr t))
  (Hme : forall c, cfg_url c = "/auth/me" -> server c = o2)
  (Hfail : o2 = None \/
           exists r2, o2 = Some r2 /\
                      (Frontend.status r2 < 200 \/ 300 <= Frontend.status r2)%Z /\
                      Frontend.status r2 <> 401%Z) :
  token (auth (browser (fst (onFinish setToken setUser values server st)))) = Some t /\
  href (browser (fst (onFinish setToken setUser values server st))) = href (browser st) /\
  (exists shown,
     notices (fst (onFinish setToken setUser values server st)) =
       (notices st ++ [Ui.Error shown])%list) /\
  (t <> "" ->
   forall child,
     App.element
       (token (auth (browser (fst (onFinish setToken setUser values server st)))))
       (App.Root child) = App.InLayout (App.page_of child)).
Proof.
  assert (Hmain :
    token (auth (browser (fst (onFinish setToken setUser values server st)))) = Some t /\
    href (browser (fst (onFinish setToken setUser values server st))) = href (browser st) /\
    (exists shown,
       notices (fst (onFinish setToken setUser values server st)) =
         (notices st ++ [Ui.Error shown])%list)).
  { unfold onFinish.
    rewrite (exchange_ok server _ _ r1 Hlogin Hok1).
    destruct (data r1) as [| | | | | |ms] eqn:Ed; try discriminate Htoken.
    cbv zeta.
    match goal with
    | |- context [Ui.exchange server me_request ?b] => set (b2 := b)
    end.
    assert (Htok2 : token (auth b2) = Some t)
      by (subst b2; cbn [auth]; rewrite Htoken; apply Hstore).
    assert (Hex : exists e, Ui.exchange server me_request b2 = (Rejected e, b2)).
    { unfold Ui.exchange. rewrite (Hme _ (on_request_url me_request b2)).
      destruct Hfail as [->|(r2 & -> & Hout & Hn)].
      - eexists. reflexivity.
      - unfold receive, settle.
        replace ((200 <=? Frontend.status r2)%Z && (Frontend.status r2 <? 300)%Z)
          with false.
        + cbn [intercept]. unfold on_rejected, status_is_401. cbn [response].
          apply Z.eqb_neq in Hn. rewrite Hn. eexists. reflexivity.
        + symmetry. apply andb_false_iff.
          destruct Hout; [left; apply Z.leb_gt|right; apply Z.ltb_ge]; lia. }
    destruct Hex as [e ->]. cbn.
    repeat split; [exact Htok2|]. eexists. reflexivity. }
  destruct Hmain as (Ht & Hh & Hn). repeat split; try assumption.
  intros Hne child. rewrite Ht. cbn.
  destruct t; [congruence|reflexivity].
Qed.

End LoginProperties.

(** *** The page theorems at concrete states *)

Lemma failed_saves_keep_target_witness :
  LLMConfigPage.all_rejected (LLMConfigPage.handleEdit row LLMConfigPage.initial)
    [LLMConfigPage.Save [("name", JStr "qwen-2")] unreachable;
     LLMConfigPage.Save [("name", JStr "qwen-3")] unreachable] /\
  LLMConfigPage.editingConfig
    (fst (LLMConfigPage.run_events emptied
            [LLMConfigPage.Save [("name", JStr "qwen-2")] unreachable;
             LLMConfigPage.Save [("name", JStr "qwen-3")] unreachable]
            (LLMConfigPage.handleEdit row LLMConfigPage.initial))) = Some row /\
  length
    (snd (LLMConfigPage.run_events emptied
            [LLMConfigPage.Save [("name", JStr "qwen-2")] unreachable;
             LLMConfigPage.Save [("name", JStr "qwen-3")] unreachable]
            (LLMConfigPage.handleEdit row LLMConfigPage.initial))) = 2%nat.
Proof.
  assert (H : LLMConfigPage.all_rejected
                (LLMConfigPage.handleEdit row LLMConfigPage.initial)
                [LLMConfigPage.Save [("name", JStr "qwen-2")] unreachable;
                 LLMConfigPage.Save [("name", JStr "qwen-3")] unreachable]).
  { repeat constructor; do 3 eexists; split; reflexivity. }
  split; [exact H|].
  destruct (failed_saves_keep_target emptied row LLMConfigPage.initial _ H)
    as (_ & He & _ & _ & Hl & _).
  split; [exact He|exact Hl].
Defined.

Lemma bad_json_sends_nothing_witness :
  Obj.get "config" bad_values = Some (JStr "{oops") /\
  toy_parse "{oops" = None /\
  snd (DataSourcePage.handleCreate toy_parse emptied bad_values accepting sources) = [].
Proof.
  split; [reflexivity|]. split; [reflexivity|].
  exact (proj1 (bad_json_sends_nothing toy_parse emptied bad_values accepting sources
                  "config" "{oops" (or_introl eq_refl) eq_refl eq_refl)).
Defined.

Lemma created_data_shape_witness :
  DataSourcePage.build_data toy_parse source_values =
    Some [("name", JStr "orders"); ("type", JStr "mysql"); ("config", JObj []);
          ("schema_info", JNull); ("examples", JNull)] /\
  Obj.get "name"
    [("name", JStr "orders"); ("type", JStr "mysql"); ("config", JObj []);
     ("schema_info", JNull); ("examples", JNull)] = Obj.get "name" source_values.
Proof.
  split; [reflexivity|].
  destruct (created_data_shape toy_parse emptied source_values _ eq_refl) as (Hk & _).
  apply Hk; discriminate.
Defined.

Lemma controls_follow_flight_witness :
  exists st1 rq,
    ChatPage.begin_send only_spaces typing = Some (st1, rq) /\
    ChatPage.controls_disabled typing = false /\
    ChatPage.controls_disabled st1 = true /\
    ChatPage.finish_send (Frontend.Resolved JNull) st1 = None /\
    exists st',
      ChatPage.finish_send (unreachable rq) st1 = Some st' /\
      ChatPage.controls_disabled st' = false.
Proof.
  do 2 eexists. split; [reflexivity|].
  destruct (controls_follow_flight only_spaces typing _ _ eq_refl)
    as (H0 & H1 & Hnull & Hrest).
  split; [exact H0|]. split; [exact H1|]. split; [exact Hnull|].
  apply Hrest. discriminate.
Defined.

Lemma login_success_witness :
  exists sent1 sent2,
    snd (LoginPage.onFinish store_token store_user
           (JObj [("username", JStr "alice"); ("password", JStr "pw")])
           auth_server signing_in) = [sent1; sent2] /\
    Obj.get "Authorization" (Frontend.cfg_headers sent2) = Some "Bearer jwt-1" /\
    Frontend.href
      (LoginPage.browser
         (fst (LoginPage.onFinish store_token store_user
                 (JObj [("username", JStr "alice"); ("password", JStr "pw")])
                 auth_server signing_in))) = "/".
Proof.
  assert (Hok : (200 <= 200 < 300)%Z) by lia.
  assert (Hme : forall c, Frontend.cfg_url c = "/auth/me" ->
                          auth_server c = Some profile_reply).
  { intros c H. unfold auth_server. rewrite H. reflexivity. }
  assert (Hne : "jwt-1" <> "") by discriminate.
  destruct (login_success store_token store_user
              (JObj [("username", JStr "alice"); ("password", JStr "pw")])
              auth_server signing_in "jwt-1" token_reply profile_reply
              (fun _ => eq_refl) (fun _ _ => eq_refl) Hne
              eq_refl Hok eq_refl Hme Hok)
    as (s1 & s2 & Hlog & _ & _ & Hauth & _ & Hhref & _).
  exists s1, s2. split; [exact Hlog|]. split; [exact Hauth|exact Hhref].
Defined.

Lemma login_profile_failure_keeps_token_witness :
  Frontend.token
    (Frontend.auth
       (LoginPage.browser
          (fst (LoginPage.onFinish store_token store_user
                  (JObj [("username", JStr "alice"); ("password", JStr "pw")])
                  profile_down signing_in)))) = Some "jwt-1" /\
  Frontend.href
    (LoginPage.browser
       (fst (LoginPage.onFinish store_token store_user
               (JObj [("username", JStr "alice"); ("password", JStr "pw")])
               profile_down signing_in))) = "/login".
Proof.
  assert (Hok : (200 <= 200 < 300)%Z) by lia.
  assert (Hme : forall c, Frontend.cfg_url c = "/auth/me" ->
                          profile_down c =
                          Some {| Frontend.status := 500; Frontend.data := JNull |}).
  { intros c H. unfold profile_down. rewrite H. reflexivity. }
  assert (Hfail : Some {| Frontend.status := 500; Frontend.data := JNull |} = None \/
                  exists r2, Some {| Frontend.status := 500; Frontend.data := JNull |} =
                               Some r2 /\
                             (Frontend.status r2 < 200 \/ 300 <= Frontend.status r2)%Z /\
                             Frontend.status r2 <> 401%Z).
  { right. eexists. split; [reflexivity|]. cbn. split; [right; lia|discriminate]. }
  destruct (login_profile_failure_keeps_token store_token store_user
              (JObj [("username", JStr "alice"); ("password", JStr "pw")])
              profile_down signing_in "jwt-1" token_reply _
              (fun _ => eq_refl) eq_refl Hok eq_refl Hme Hfail)
    as (Ht & Hh & _).
  split; [exact Ht|exact Hh].
Defined.

Lemma interface_texts_are_optional_witness :
  (exists rest,
     snd (InterfacePage.handleCreate toy_parse object_text emptied blank_values
            accepting interface_list) =
       Ui.call "post" "/interfaces" (JObj blank_values) :: rest) /\
  snd (InterfacePage.handleCreate toy_parse object_text emptied bad_values
         accepting interface_list) = [].
Proof.
  split.
  - apply (proj1 (interface_texts_are_optional toy_parse object_text emptied
                    blank_values accepting interface_list)).
    + right. exists (JStr ""). split; reflexivity.
    + left. reflexivity.
  - rewrite (proj2 (interface_texts_are_optional toy_parse object_text emptied
                      bad_values accepting interface_list)
               "config" "{oops" (or_introl eq_refl) eq_refl
               ltac:(discriminate) eq_refl).
    reflexivity.
Defined.
